(** * Key-expiry notification job: the two handlers and their properties

    The repository holds two variants of one scheduled job:

    - [gpg-keys-lambda.py], the single-key variant: one mail per expiring
      key, sent while the manifest is read (module [SingleKey]);
    - [lambda-testing.py], the consolidated variant: expiring keys are grouped
      by recipient and one mail per recipient is sent after the manifest has
      been read (module [Consolidated]).

    Both are embedded here as executable functions.  Python text is a
    [string]; the model covers ASCII text, the characters a manifest of key
    names, dates and mail addresses is made of.  Python integers are [Z].
    The manifest is taken after [csv.DictReader] has cut it into rows; the
    clock, the object store and the mail transport are inputs. *)

From Stdlib Require Import ZArith Lia Ascii String.
From stdpp Require Import base list strings pretty.

Local Open Scope string_scope.
Local Open Scope list_scope.
Local Open Scope Z_scope.

(** ** Python text *)

Module PyStr.

Definition code (c : ascii) : N := N_of_ascii c.

(** [str.isspace] on one ASCII character: TAB, LF, VT, FF, CR, the four
    separators FS, GS, RS, US and the space. *)
Definition isspace (c : ascii) : bool :=
  let n := code c in
  ((9 <=? n) && (n <=? 13) || (28 <=? n) && (n <=? 32))%N.

Fixpoint lstrip (s : string) : string :=
  match s with
  | EmptyString => EmptyString
  | String c r => if isspace c then lstrip r else s
  end.

Fixpoint rstrip (s : string) : string :=
  match s with
  | EmptyString => EmptyString
  | String c r =>
      match rstrip r with
      | EmptyString => if isspace c then EmptyString else String c EmptyString
      | r' => String c r'
      end
  end.

(** [s.strip()] *)
Definition strip (s : string) : string := rstrip (lstrip s).

Definition upper_char (c : ascii) : ascii :=
  let n := code c in
  if ((97 <=? n) && (n <=? 122))%N then ascii_of_N (n - 32) else c.

(** [s.upper()], on ASCII text *)
Fixpoint upper (s : string) : string :=
  match s with
  | EmptyString => EmptyString
  | String c r => String (upper_char c) (upper r)
  end.

(** [s.split(sep)] for a one-character separator: never the empty list. *)
Fixpoint split (sep : ascii) (s : string) : list string :=
  match s with
  | EmptyString => [EmptyString]
  | String c r =>
      if Ascii.eqb c sep then EmptyString :: split sep r
      else match split sep r with
           | h :: t => String c h :: t
           | [] => [String c EmptyString]
           end
  end.

(** Truth value of a string: the empty string is false. *)
Definition nonempty (s : string) : bool :=
  match s with EmptyString => false | _ => true end.

(** Truth value of a value that is a string or [None]. *)
Definition truthy (v : option string) : bool :=
  match v with Some s => nonempty s | None => false end.

(** [a or b] *)
Definition or_ (a b : option string) : option string :=
  if truthy a then a else b.

(** [a or 'literal'] *)
Definition or_lit (a : option string) (d : string) : string :=
  match a with
  | Some (String c r) => String c r
  | _ => d
  end.

(** Every character of the text is white space. *)
Fixpoint all_space (s : string) : bool :=
  match s with
  | EmptyString => true
  | String c r => isspace c && all_space r
  end.

Definition comma : ascii := ascii_of_N 44.
Definition dq : string := String (ascii_of_N 34) EmptyString.
Definition nl : string := String (ascii_of_N 10) EmptyString.

End PyStr.

(** ** Exceptions

    Every exception the handlers can meet derives from [Exception].  The
    class is kept with the text [str(e)] gives; the messages of [strptime],
    which quote the offending text, are shortened to their reason. *)

Inductive exn :=
| ValueError (msg : string)
| AttributeError (msg : string)
| OtherException (class msg : string).

(** [str(e)] *)
Definition exn_str (e : exn) : string :=
  match e with
  | ValueError m | AttributeError m | OtherException _ m => m
  end.

(** ** The calendar of [datetime] *)

Module Calendar.

Record date := Date { year : Z; month : Z; day : Z }.

Record datetime := DateTime {
  dt_date : date;
  hour : Z; minute : Z; second : Z; microsecond : Z
}.

Definition is_leap (y : Z) : bool :=
  (y mod 4 =? 0) && (negb (y mod 100 =? 0) || (y mod 400 =? 0)).

Definition days_before_year (y : Z) : Z :=
  let y1 := y - 1 in y1 * 365 + y1 / 4 - y1 / 100 + y1 / 400.

Definition DAYS_IN_MONTH (m : Z) : Z :=
  match m with
  | 1 => 31 | 2 => 28 | 3 => 31 | 4 => 30 | 5 => 31 | 6 => 30
  | 7 => 31 | 8 => 31 | 9 => 30 | 10 => 31 | 11 => 30 | 12 => 31
  | _ => 0
  end.

Definition DAYS_BEFORE_MONTH (m : Z) : Z :=
  match m with
  | 1 => 0 | 2 => 31 | 3 => 59 | 4 => 90 | 5 => 120 | 6 => 151
  | 7 => 181 | 8 => 212 | 9 => 243 | 10 => 273 | 11 => 304 | 12 => 334
  | _ => 0
  end.

Definition days_in_month (y m : Z) : Z :=
  if (m =? 2) && is_leap y then 29 else DAYS_IN_MONTH m.

Definition days_before_month (y m : Z) : Z :=
  DAYS_BEFORE_MONTH m + (if (2 <? m) && is_leap y then 1 else 0).

Definition ymd2ord (y m d : Z) : Z :=
  days_before_year y + days_before_month y m + d.

(** [date.toordinal()] *)
Definition toordinal (d : date) : Z := ymd2ord (year d) (month d) (day d).

(** The check [date(year, month, day)] makes on its arguments. *)
Definition valid_date (d : date) : bool :=
  (1 <=? year d) && (year d <=? 9999) &&
  (1 <=? month d) && (month d <=? 12) &&
  (1 <=? day d) && (day d <=? days_in_month (year d) (month d)).

Definition valid_time (t : datetime) : bool :=
  (0 <=? hour t) && (hour t <? 24) &&
  (0 <=? minute t) && (minute t <? 60) &&
  (0 <=? second t) && (second t <? 60) &&
  (0 <=? microsecond t) && (microsecond t <? 1000000).

(** A [timedelta], normalised as its constructor does:
    [0 <= seconds < 86400] and [0 <= microseconds < 1000000]. *)
Record timedelta := TimeDelta { days : Z; seconds : Z; microseconds : Z }.

Definition mk_timedelta (d s us : Z) : timedelta :=
  let s1 := s + us / 1000000 in
  TimeDelta (d + s1 / 86400) (s1 mod 86400) (us mod 1000000).

Definition seconds_of_day (t : datetime) : Z :=
  second t + minute t * 60 + hour t * 3600.

(** [a - b] on two naive [datetime] values. *)
Definition datetime_sub (a b : datetime) : timedelta :=
  mk_timedelta (toordinal (dt_date a) - toordinal (dt_date b))
               (seconds_of_day a - seconds_of_day b)
               (microsecond a - microsecond b).

(** [a - b] on two [date] values. *)
Definition date_sub (a b : date) : timedelta :=
  mk_timedelta (toordinal a - toordinal b) 0 0.

(** The [datetime] at midnight of a date, as [strptime] returns it for a
    format without time fields. *)
Definition midnight (d : date) : datetime := DateTime d 0 0 0 0.

End Calendar.

(** ** [datetime.strptime(s, '%d-%m-%Y')]

    [_strptime] turns the format into the regular expression
    [(?P<d>3[0-1]|[1-2]\d|0[1-9]|[1-9]| [1-9])-(?P<m>1[0-2]|0[1-9]|[1-9])-(?P<Y>\d\d\d\d)],
    matches it at the start of the text, refuses text left over, and builds a
    date from the three groups, which refuses a day the month does not have
    and the year 0. *)

Module Strptime.
Import Calendar.

Definition in_range (lo hi : N) (c : ascii) : bool :=
  ((lo <=? PyStr.code c) && (PyStr.code c <=? hi))%N.

Definition is_digit : ascii -> bool := in_range 48 57.
Definition is_char (n : N) : ascii -> bool := in_range n n.

(** An alternative of a group is a sequence of character classes. *)
Definition alternative := list (ascii -> bool).

(** Match one alternative at the start of [s]: the matched text and the
    rest. *)
Fixpoint match_alt (a : alternative) (s : string) : option (string * string) :=
  match a with
  | [] => Some (EmptyString, s)
  | p :: a' =>
      match s with
      | String c r =>
          if p c then
            match match_alt a' r with
            | Some (m, rest) => Some (String c m, rest)
            | None => None
            end
          else None
      | EmptyString => None
      end
  end.

Definition group_d : list alternative :=
  [ [is_char 51; in_range 48 49];
    [in_range 49 50; is_digit];
    [is_char 48; in_range 49 57];
    [in_range 49 57];
    [is_char 32; in_range 49 57] ].

Definition group_m : list alternative :=
  [ [is_char 49; in_range 48 50];
    [is_char 48; in_range 49 57];
    [in_range 49 57] ].

Definition group_Y : list alternative :=
  [ [is_digit; is_digit; is_digit; is_digit] ].

(** A group followed by the rest of the expression: the alternatives are
    tried in order, and a later one is tried when the rest fails after an
    earlier one (backtracking). *)
Fixpoint match_group {A} (alts : list alternative) (s : string)
    (k : string -> string -> option A) : option A :=
  match alts with
  | [] => None
  | a :: alts' =>
      match match_alt a s with
      | Some (m, rest) =>
          match k m rest with
          | Some x => Some x
          | None => match_group alts' s k
          end
      | None => match_group alts' s k
      end
  end.

Definition match_dash {A} (s : string) (k : string -> option A) : option A :=
  match s with
  | String c r => if is_char 45 c then k r else None
  | EmptyString => None
  end.

(** The groups [d], [m], [Y] and the text after the match. *)
Definition re_match (s : string) : option (string * string * string * string) :=
  match_group group_d s (fun d s1 =>
    match_dash s1 (fun s2 =>
      match_group group_m s2 (fun m s3 =>
        match_dash s3 (fun s4 =>
          match_group group_Y s4 (fun y rest => Some (d, m, y, rest)))))).

(** [int(text)] on the text of a group: digits, and for [d] a leading
    space, which [int] skips. *)
Fixpoint int_go (acc : Z) (s : string) : Z :=
  match s with
  | EmptyString => acc
  | String c r =>
      if is_digit c then int_go (acc * 10 + (Z.of_N (PyStr.code c) - 48)) r
      else int_go acc r
  end.

Definition int (s : string) : Z := int_go 0 s.

Definition strptime (s : string) : exn + datetime :=
  match re_match s with
  | None => inl (ValueError "time data does not match format")
  | Some (d, m, y, rest) =>
      if PyStr.nonempty rest then inl (ValueError "unconverted data remains")
      else
        let dte := Date (int y) (int m) (int d) in
        if valid_date dte then inr (midnight dte)
        else inl (ValueError "date out of range")
  end.

End Strptime.

(** ** Dictionaries and manifest rows

    A [dict] keeps its keys in the order they were first set; it is an
    association list whose keys are distinct. *)

Module PyDict.

Definition pydict (V : Type) := list (string * V).

Fixpoint lookup {V} (k : string) (d : pydict V) : option V :=
  match d with
  | [] => None
  | (k', v) :: d' => if String.eqb k' k then Some v else lookup k d'
  end.

(** [d[k] = v] *)
Fixpoint set {V} (k : string) (v : V) (d : pydict V) : pydict V :=
  match d with
  | [] => [(k, v)]
  | (k', v') :: d' =>
      if String.eqb k' k then (k', v) :: d' else (k', v') :: set k v d'
  end.

(** [d.setdefault(k, []).append(x)] *)
Fixpoint setdefault_append {V} (k : string) (x : V) (d : pydict (list V))
    : pydict (list V) :=
  match d with
  | [] => [(k, [x])]
  | (k', l) :: d' =>
      if String.eqb k' k then (k', l ++ [x]) :: d'
      else (k', l) :: setdefault_append k x d'
  end.

(** A cell of a row is a string, or [None] where the line was shorter
    than the header. *)
Definition cells := pydict (option string).

(** [row.get(k)]: [None] for a missing key as for a [None] cell. *)
Definition get (k : string) (d : cells) : option string :=
  match lookup k d with Some v => v | None => None end.

(** [row.get(k, default)] *)
Definition get_or (k : string) (default : string) (d : cells) : option string :=
  match lookup k d with Some v => v | None => Some default end.

End PyDict.

(** A row as [csv.DictReader] yields it: the header names mapped to the
    cells of the line and, when the line has more cells than the header has
    names, the surplus cells under the key [None]. *)
Record row := Row {
  row_cells : PyDict.cells;
  row_rest : option (list string)
}.

(** What the object store and the CSV reader hand to the handler:
    [get_object], [read] or [decode] raises; or reading the header raises;
    or the reader yields its rows and then stops, normally or by raising. *)
Inductive manifest :=
| FetchFails (e : exn)
| HeaderFails (e : exn)
| Manifest (fieldnames : option (list string)) (rows : list row)
           (stop : option exn).

(** ** The world around the handlers *)

Record ses_request := SesRequest {
  Source : string;
  ToAddresses : list string;
  Subject : string;
  Text : string;
  Html : string
}.

(** One constructor per [print] of the two files, holding the values the
    line interpolates. *)
Inductive log_line :=
| LogColumns (fieldnames : option (list string))
| LogCurrentDate (today : Calendar.date)
| LogProcessingRow (r : row)
| LogNoExpiry (key_name : string)
| LogKey (key_name expiry : string) (days_until_expiry : Z)
| LogKeyDate (key_name : string) (expiry : Calendar.date) (days_until_expiry : Z)
| LogNotificationSent (key_name : string) (recipients : list string)
| LogErrorProcessing (key : option string) (e : exn)
| LogSummary (processed notified errors : Z)
| LogSummarySent (processed notifications_sent : Z)
| LogFatal (e : exn)
| LogSendOk (key_name : string) (recipients : list string)
| LogAttemptFailed (attempt : Z) (who : string) (e : option exn)
| LogAllFailed (max_retries : Z) (who : string)
| LogSending (recipient : string) (n : Z)
| LogErrorSending (recipient : string) (e : exn)
| LogErrorInSending (e : exn).

Inductive event :=
| Print (l : log_line)
| SendEmail (r : ses_request)
| Sleep (secs : Z).

Definition is_send (e : event) : bool :=
  match e with SendEmail _ => true | _ => false end.

(** Number of [ses.send_email] calls in a trace. *)
Definition sends (t : list event) : nat := length (filter is_send t).

(** The mail transport: the outcome of the [n]-th call (counted from 0) on
    a request is an exception or the response of the service. *)
Definition transport := nat -> ses_request -> exn + string.

(** ** Computations: local variables, a trace, exceptions *)

Module Eff.

Inductive res (A : Type) :=
| Ok (a : A)
| Raise (e : exn).
Arguments Ok {A} a.
Arguments Raise {A} e.

(** [S] holds the local variables the code assigns to; what was assigned
    before an exception stays assigned. *)
Definition M (S A : Type) : Type := S -> list event -> res A * S * list event.

Definition ret {S A} (a : A) : M S A := fun s t => (Ok a, s, t).

Definition bind {S A B} (m : M S A) (k : A -> M S B) : M S B :=
  fun s t =>
    match m s t with
    | (Ok a, s', t') => k a s' t'
    | (Raise e, s', t') => (Raise e, s', t')
    end.

Definition raise {S A} (e : exn) : M S A := fun s t => (Raise e, s, t).

(** [try: m  except Exception as e: h e] *)
Definition try_except {S A} (m : M S A) (h : exn -> M S A) : M S A :=
  fun s t =>
    match m s t with
    | (Ok a, s', t') => (Ok a, s', t')
    | (Raise e, s', t') => h e s' t'
    end.

Definition get {S} : M S S := fun s t => (Ok s, s, t).
Definition modify {S} (f : S -> S) : M S unit := fun s t => (Ok tt, f s, t).
Definition emit {S} (e : event) : M S unit := fun s t => (Ok tt, s, t ++ [e]).
Definition print {S} (l : log_line) : M S unit := emit (Print l).

(** [time.sleep(secs)] *)
Definition sleep {S} (secs : Z) : M S unit := emit (Sleep secs).

(** [ses.send_email(...)] *)
Definition send_email {S} (ses : transport) (r : ses_request) : M S string :=
  fun s t =>
    match ses (sends t) r with
    | inl e => (Raise e, s, t ++ [SendEmail r])
    | inr response => (Ok response, s, t ++ [SendEmail r])
    end.

Definition of_sum {S A} (x : exn + A) : M S A :=
  match x with inl e => raise e | inr a => ret a end.

(** [for x in l: body x] *)
Fixpoint for_each {S A} (l : list A) (body : A -> M S unit) : M S unit :=
  match l with
  | [] => ret tt
  | x :: l' => bind (body x) (fun _ => for_each l' body)
  end.

(** [for x in reader: body x], where the reader may raise once its rows
    are exhausted. *)
Definition for_rows {S A} (l : list A) (stop : option exn)
    (body : A -> M S unit) : M S unit :=
  bind (for_each l body) (fun _ =>
    match stop with Some e => raise e | None => ret tt end).

End Eff.

Import Eff.

Notation "x <- m ;; k" := (Eff.bind m (fun x => k))
  (at level 100, m at next level, right associativity, only parsing).
Notation "m ;;; k" := (Eff.bind m (fun _ => k))
  (at level 100, right associativity, only parsing).

(** ** Loops *)

Module Py.

(** [range(n)] *)
Definition range (n : Z) : list Z := map Z.of_nat (seq 0 (Z.to_nat n)).

(** [enumerate(l, start)] *)
Fixpoint enumerate {A} (start : Z) (l : list A) : list (Z * A) :=
  match l with
  | [] => []
  | x :: l' => (start, x) :: enumerate (start + 1) l'
  end.

(** How one turn of a retry loop ends: the function returns, or the loop
    goes on to its next turn. *)
Inductive turn (A : Type) :=
| Return (a : A)
| Next.
Arguments Return {A} a.
Arguments Next {A}.

End Py.

(** ** The single-key variant ([gpg-keys-lambda.py]) *)

Module SingleKey.
Import Calendar.

Definition subject (key_name : string) : string :=
  "Key Expiration Alert: " +:+ key_name +:+ " - Action Required".

Definition html_body (key_name expiry_date : string) (days_remaining : Z)
    : string :=
  "
    <html>
    <head>
        <style>
            body { font-family: Arial, sans-serif; line-height: 1.6; color: #333; }
            .container { max-width: 600px; margin: 0 auto; padding: 20px; }
            .header { background-color: #f8d7da; color: #721c24; padding: 15px; text-align: center; border-radius: 5px; }
            .content { background-color: #f8f9fa; padding: 20px; border-radius: 5px; margin: 15px 0; }
            .key-details { background-color: #f8f9fa; padding: 15px; border-left: 4px solid #ccc; margin: 15px 0; }
            .action { background-color: #d1ecf1; color: #0c5460; padding: 15px; border-radius: 5px; }
            .footer { font-size: 12px; color: #6c757d; margin-top: 30px; text-align: center; }
        </style>
    </head>
    <body>
        <div class=" +:+
  PyStr.dq +:+
  "container" +:+
  PyStr.dq +:+
  ">
            <div class=" +:+
  PyStr.dq +:+
  "header" +:+
  PyStr.dq +:+
  ">
                <h1>Key Expiration Alert !!</h1>
            </div>
            
            <div class=" +:+
  PyStr.dq +:+
  "content" +:+
  PyStr.dq +:+
  ">
                <p>This is an automated notification that the following key is approaching expiration:</p>
                <div class=" +:+
  PyStr.dq +:+
  "key-details" +:+
  PyStr.dq +:+
  ">
                    <strong>Key Name:</strong> " +:+
  key_name +:+
  "<br>
                    <strong>Expiration Date:</strong> DD-MM-YYYY:" +:+
  expiry_date +:+
  "<br>
                    <strong>Days Remaining:</strong> " +:+
  pretty days_remaining +:+
  "
                </div>
            </div>
            
            <div class=" +:+
  PyStr.dq +:+
  "action" +:+
  PyStr.dq +:+
  ">
                <strong>Action Required</strong><br>
                Update the key before expiration.
            </div>
            
            <div class=" +:+
  PyStr.dq +:+
  "footer" +:+
  PyStr.dq +:+
  ">
                This is an automated notification sent 14 days before key expiration.
            </div>
        </div>
    </body>
    </html>
    ".

Definition text_body (key_name expiry_date : string) (days_remaining : Z)
    : string :=
  "
    KEY EXPIRATION ALERT        ACTION REQUIRED
    
    Key Name: " +:+
  key_name +:+
  "
    Expiration Date: " +:+
  expiry_date +:+
  "
    Days Remaining: " +:+
  pretty days_remaining +:+
  "
    
    Please take immediate action to update/rotate this key before expiration.
    
    This is an automated notification sent 14 days before key expiration.
    ".

Definition max_retries : Z := 3.

(** The loop [for attempt in range(max_retries)] of
    [send_formatted_email]; a loop that runs out of turns falls off the
    end of the function, which then returns [None]. *)
Fixpoint retry_loop {S} (ses : transport) (req : ses_request)
    (key_name : string) (recipients : list string) (attempts : list Z)
    : M S (option string) :=
  match attempts with
  | [] => ret None
  | attempt :: rest =>
      r <- try_except
             (response <- send_email ses req ;;
              print (LogSendOk key_name recipients) ;;;
              ret (Py.Return response))
             (fun e =>
                if attempt <? max_retries - 1 then
                  print (LogAttemptFailed (attempt + 1) key_name None) ;;;
                  sleep 1 ;;;
                  ret Py.Next
                else
                  print (LogAllFailed max_retries key_name) ;;;
                  raise e) ;;
      match r with
      | Py.Return response => ret (Some response)
      | Py.Next => retry_loop ses req key_name recipients rest
      end
  end.

Definition send_formatted_email {S} (ses : transport) (sender : string)
    (recipients : list string) (key_name expiry_date : string)
    (days_remaining : Z) : M S (option string) :=
  let req := SesRequest sender recipients (subject key_name)
               (text_body key_name expiry_date days_remaining)
               (html_body key_name expiry_date days_remaining) in
  retry_loop ses req key_name recipients (Py.range max_retries).

(** The counters of a run. *)
Record stats := Stats { processed : Z; notified : Z; errors : Z }.

Definition sender_email : string := "avarikoti@gmail.com".

(** [row.get('GPG_Private_Key') or row.get('GPG_private_key') or 'unknown'] *)
Definition key_name_of (c : PyDict.cells) : string :=
  PyStr.or_lit (PyStr.or_ (PyDict.get "GPG_Private_Key" c)
                          (PyDict.get "GPG_private_key" c)) "unknown".

(** [row.get('GPG_Key_Expiry') or row.get('GPG_key_expiry') or row.get('expiry_date')] *)
Definition expiry_date_str_of (c : PyDict.cells) : option string :=
  PyStr.or_ (PyStr.or_ (PyDict.get "GPG_Key_Expiry" c)
                       (PyDict.get "GPG_key_expiry" c))
            (PyDict.get "expiry_date" c).

(** [row.get('PIC_Email') or row.get('PIC_email', '')] *)
Definition email_column_of (c : PyDict.cells) : option string :=
  PyStr.or_ (PyDict.get "PIC_Email" c) (PyDict.get_or "PIC_email" "" c).

(** [[email.strip() for email in email_column.split(',')]] *)
Definition recipients_of (email_column : string) : list string :=
  map PyStr.strip (PyStr.split PyStr.comma email_column).

(** [(expiry_date - today).days], on two [datetime] values *)
Definition days_until_expiry (expiry_date today : datetime) : Z :=
  days (datetime_sub expiry_date today).

(** [days_until_expiry == 14 or (1 <= days_until_expiry <= 3)] *)
Definition notifiable (d : Z) : bool :=
  (d =? 14) || ((1 <=? d) && (d <=? 3)).

(** The body of the inner [try], lines 45 to 78. *)
Definition row_body (ses : transport) (today : datetime) (r : row)
    : M stats unit :=
  let c := row_cells r in
  let key_name := key_name_of c in
  match expiry_date_str_of c with
  | None | Some EmptyString => print (LogNoExpiry key_name)
  | Some expiry_date_str =>
      expiry_date <- of_sum (Strptime.strptime expiry_date_str) ;;
      let d := days_until_expiry expiry_date today in
      print (LogKey key_name expiry_date_str d) ;;;
      if notifiable d then
        email_column <-
          match email_column_of c with
          | Some s => ret s
          | None => raise (AttributeError
                      "'NoneType' object has no attribute 'split'")
          end ;;
        let recipients := recipients_of email_column in
        send_formatted_email ses sender_email recipients key_name
          expiry_date_str d ;;;
        modify (fun s => Stats (processed s) (notified s + 1) (errors s)) ;;;
        print (LogNotificationSent key_name recipients)
      else ret tt
  end.

(** The key named by the message of the inner handler:
    [row.get('GPG_Private_Key', row.get('GPG_private_key', 'unknown'))] *)
Definition error_key_of (c : PyDict.cells) : option string :=
  match PyDict.lookup "GPG_Private_Key" c with
  | Some v => v
  | None => PyDict.get_or "GPG_private_key" "unknown" c
  end.

(** One turn of the loop over the rows, lines 42 to 83. *)
Definition process_row (ses : transport) (today : datetime) (r : row)
    : M stats unit :=
  modify (fun s => Stats (processed s + 1) (notified s) (errors s)) ;;;
  print (LogProcessingRow r) ;;;
  try_except (row_body ses today r)
    (fun inner_error =>
       modify (fun s => Stats (processed s) (notified s) (errors s + 1)) ;;;
       print (LogErrorProcessing (error_key_of (row_cells r)) inner_error)).

(** What the handler returns: the status code and the text handed to
    [json.dumps] for the body. *)
Record response := Response { statusCode : Z; body : string }.

(** The body of the outer [try], lines 19 to 89. *)
Definition run (m : manifest) (ses : transport) (today : datetime)
    : M stats response :=
  match m with
  | FetchFails e => raise e
  | HeaderFails e => raise e
  | Manifest fieldnames rows stop =>
      print (LogColumns fieldnames) ;;;
      print (LogCurrentDate (dt_date today)) ;;;
      modify (fun _ => Stats 0 0 0) ;;;
      for_rows rows stop (process_row ses today) ;;;
      s <- get ;;
      print (LogSummary (processed s) (notified s) (errors s)) ;;;
      ret (Response 200
             ("Processed " +:+ pretty (processed s) +:+ " keys, sent " +:+
              pretty (notified s) +:+ " notifications"))
  end.

(** [lambda_handler(event, context)]: the manifest the store holds, the
    transport and the reading of the clock stand for the world; the two
    arguments are not used by the code. *)
Definition lambda_handler (m : manifest) (ses : transport) (today : datetime)
    : res response * stats * list event :=
  try_except (run m ses today)
    (fun outer_error =>
       print (LogFatal outer_error) ;;;
       ret (Response 500 ("Error: " +:+ exn_str outer_error)))
    (Stats 0 0 0) [].

End SingleKey.

(** ** The consolidated variant ([lambda-testing.py]) *)

Module Consolidated.
Import Calendar.

(** The dictionary appended to a recipient's list, lines 60 to 65. *)
Record key_entry := KeyEntry {
  feed_name : string;
  key_name : string;
  expiry_date : string;
  days_until_expiry : Z
}.

Definition subject : string := "GPG Key Expiration ALERT-Action Required".

(** The text one turn of the loop of lines 94 to 103 adds to
    [table_rows_html]. *)
Definition table_row_html (index : Z) (key : key_entry) : string :=
  "
        <tr>
            <td>" +:+
  pretty index +:+
  "</td>
            <td>" +:+
  feed_name key +:+
  "</td>
            <td>" +:+
  key_name key +:+
  "</td>
            <td>" +:+
  expiry_date key +:+
  "</td>
            <td>" +:+
  pretty (days_until_expiry key) +:+
  "</td>
        </tr>
        ".

Definition table_rows_html (key_data : list key_entry) : string :=
  fold_left (fun acc ik => acc +:+ table_row_html (fst ik) (snd ik))
            (Py.enumerate 1 key_data) "".

Definition html_body (key_data : list key_entry) : string :=
  "
    <html>
    <head>
        <style>
            table { border-collapse: collapse; width: 100%; }
            th, td { border: 1px solid #ddd; padding: 8px; }
            th { background-color: #f2f2f2; }
            .footer { font-size: 12px; color: #666; margin-top: 20px; }
        </style>
    </head>
    <body>
        <h1>Key Expiration Alert</h1>
        <p>The following keys are approaching expiration:</p>
        <table>
            <thead>
                <tr>
                    <th>S.No</th>
                    <th>Feed Name</th>
                    <th>GPG Private Key</th>
                    <th>Expiry Date</th>
                    <th>Days Remaining</th>
                </tr>
            </thead>
            <tbody>
                " +:+
  table_rows_html key_data +:+
  "
            </tbody>
        </table>
        <br>
        <br>
        <div class=" +:+
  PyStr.dq +:+
  "action" +:+
  PyStr.dq +:+
  ">
            <strong>Action Required</strong><br>
            Please update these keys before expiration.
        </div>
       
    </body>
    </html>
    ".

(** The line one turn of the loop of lines 144 and 145 adds to
    [text_body]. *)
Definition text_line (index : Z) (key : key_entry) : string :=
  pretty index +:+ ". " +:+ feed_name key +:+ " | " +:+ key_name key +:+
  " | " +:+ expiry_date key +:+ " | " +:+ pretty (days_until_expiry key) +:+
  " days" +:+ PyStr.nl.

Definition text_header : string :=
  "GPG KEY EXPIRATION ALERT - ACTION REQUIRED" +:+ PyStr.nl +:+ PyStr.nl.

Definition text_footer : string :=
  PyStr.nl +:+ "Please update these keys before expiration." +:+ PyStr.nl +:+
  "This is an automated notification sent 30 days before key expiration.".

Definition text_body (key_data : list key_entry) : string :=
  fold_left (fun acc ik => acc +:+ text_line (fst ik) (snd ik))
            (Py.enumerate 1 key_data) text_header
  +:+ text_footer.

Definition max_retries : Z := 3.

(** The loop [for attempt in range(max_retries)] of
    [send_consolidated_email] and the two lines after it. *)
Fixpoint retry_loop {S} (ses : transport) (req : ses_request)
    (recipient : string) (attempts : list Z) : M S Z :=
  match attempts with
  | [] =>
      print (LogAllFailed max_retries recipient) ;;;
      ret 0
  | attempt :: rest =>
      r <- try_except
             (send_email ses req ;;;
              print (LogSendOk recipient [recipient]) ;;;
              ret (Py.Return 1))
             (fun e =>
                print (LogAttemptFailed (attempt + 1) recipient (Some e)) ;;;
                ret Py.Next) ;;
      match r with
      | Py.Return n => ret n
      | Py.Next => retry_loop ses req recipient rest
      end
  end.

Definition send_consolidated_email {S} (ses : transport) (recipient : string)
    (key_data : list key_entry) (sender_email : string) : M S Z :=
  let req := SesRequest sender_email [recipient] subject
               (text_body key_data) (html_body key_data) in
  retry_loop ses req recipient (Py.range max_retries).

(** The variables of [lambda_handler] that are assigned in its loops;
    [row_var] is the variable [row], which line 35 rebinds. *)
Record locals := Locals {
  processed : Z;
  recipient_keys : PyDict.pydict (list key_entry);
  notifications_sent : Z;
  row_var : PyDict.cells
}.

Definition sender_email : string := "x".

(** [{k.strip(): v for k, v in row.items()}]: the key [None] of a row
    with surplus cells has no [strip]. *)
Definition strip_keys (r : row) : exn + PyDict.cells :=
  match row_rest r with
  | Some _ => inl (AttributeError "'NoneType' object has no attribute 'strip'")
  | None =>
      inr (fold_left (fun d kv => PyDict.set (PyStr.strip (fst kv)) (snd kv) d)
                     (row_cells r) [])
  end.

Definition key_name_of (c : PyDict.cells) : string :=
  PyStr.or_lit (PyStr.or_ (PyDict.get "GPG_Private_Key" c)
                          (PyDict.get "GPG_private_key" c)) "unknown".

Definition feed_name_of (c : PyDict.cells) : string :=
  PyStr.or_lit (PyStr.or_ (PyDict.get "Feed_Name" c)
                          (PyDict.get "feed_name" c)) "unknown".

Definition expiry_date_str_of (c : PyDict.cells) : option string :=
  PyStr.or_ (PyStr.or_ (PyDict.get "GPG_Key_Expiry" c)
                       (PyDict.get "gpg_key_expiry" c))
            (PyDict.get "expiry_date" c).

Definition email_column_of (c : PyDict.cells) : option string :=
  PyStr.or_ (PyDict.get "PIC_Email" c) (PyDict.get_or "PIC_email" "" c).

(** [expiry_date_str.strip().upper() == 'N/A'] *)
Definition is_na (expiry_date_str : string) : bool :=
  String.eqb (PyStr.upper (PyStr.strip expiry_date_str)) "N/A".

(** [(expiry_date - today).days], on two [date] values *)
Definition days_left (expiry_date today : date) : Z :=
  days (date_sub expiry_date today).

(** [0 <= days_until_expiry <= 30] *)
Definition notifiable (d : Z) : bool := (0 <=? d) && (d <=? 30).

(** Lines 57 to 65: the loop over the segments of the recipient field. *)
Definition add_recipient (entry : key_entry) (recipient : string)
    : M locals unit :=
  let recipient := PyStr.strip recipient in
  if PyStr.nonempty recipient then
    modify (fun s => Locals (processed s)
              (PyDict.setdefault_append recipient entry (recipient_keys s))
              (notifications_sent s) (row_var s))
  else ret tt.

(** The body of the inner [try], lines 35 to 67. *)
Definition row_body (today : date) (r : row) : M locals unit :=
  c <- of_sum (strip_keys r) ;;
  modify (fun s => Locals (processed s) (recipient_keys s)
                          (notifications_sent s) c) ;;;
  let key_name := key_name_of c in
  let feed_name := feed_name_of c in
  let skip := print (LogNoExpiry key_name) in
  match expiry_date_str_of c with
  | None | Some EmptyString => skip
  | Some expiry_date_str =>
      if is_na expiry_date_str then skip
      else
        parsed <- of_sum (Strptime.strptime expiry_date_str) ;;
        let expiry_date := dt_date parsed in
        let d := days_left expiry_date today in
        print (LogKeyDate key_name expiry_date d) ;;;
        (if notifiable d then
           email_column <-
             match email_column_of c with
             | Some s => ret s
             | None => raise (AttributeError
                         "'NoneType' object has no attribute 'strip'")
             end ;;
           let email := PyStr.strip email_column in
           if PyStr.nonempty email then
             for_each (PyStr.split PyStr.comma email)
               (add_recipient (KeyEntry feed_name key_name expiry_date_str d))
           else ret tt
         else ret tt) ;;;
        modify (fun s => Locals (processed s + 1) (recipient_keys s)
                                (notifications_sent s) (row_var s))
  end.

(** One turn of the loop over the rows, lines 33 to 69. *)
Definition process_row (today : date) (r : row) : M locals unit :=
  modify (fun s => Locals (processed s) (recipient_keys s)
                          (notifications_sent s) (row_cells r)) ;;;
  print (LogProcessingRow r) ;;;
  try_except (row_body today r)
    (fun inner_error =>
       s <- get ;;
       print (LogErrorProcessing
                (Some (PyStr.or_lit (PyDict.get "GPG_Private_Key" (row_var s))
                                    "unknown"))
                inner_error)).

(** One turn of the loop over the recipients, lines 75 to 79. *)
Definition notify (ses : transport)
    (rk : string * list key_entry) : M locals unit :=
  let recipient := fst rk in
  let keys := snd rk in
  print (LogSending recipient (Z.of_nat (length keys))) ;;;
  try_except
    (n <- send_consolidated_email ses recipient keys sender_email ;;
     modify (fun s => Locals (processed s) (recipient_keys s)
                             (notifications_sent s + n) (row_var s)))
    (fun email_error => print (LogErrorSending recipient email_error)).

(** Lines 72 to 84. *)
Definition send_emails (ses : transport) : M locals unit :=
  try_except
    (modify (fun s => Locals (processed s) (recipient_keys s) 0 (row_var s)) ;;;
     s <- get ;;
     for_each (recipient_keys s) (notify ses) ;;;
     s <- get ;;
     print (LogSummarySent (processed s) (notifications_sent s)))
    (fun outer_error => print (LogErrorInSending outer_error)).

(** The body of the outer [try], lines 17 to 84. *)
Definition run (m : manifest) (ses : transport) (today : date)
    : M locals unit :=
  match m with
  | FetchFails e => raise e
  | HeaderFails e => raise e
  | Manifest fieldnames rows stop =>
      print (LogColumns fieldnames) ;;;
      print (LogCurrentDate today) ;;;
      modify (fun s => Locals 0 [] (notifications_sent s) (row_var s)) ;;;
      for_rows rows stop (process_row today) ;;;
      send_emails ses
  end.

(** [lambda_handler(event, context)]; it returns [None] on every path. *)
Definition lambda_handler (m : manifest) (ses : transport) (today : date)
    : res unit * locals * list event :=
  try_except (run m ses today)
    (fun e => print (LogFatal e))
    (Locals 0 [] 0 []) [].

(** What a row adds to [recipient_keys], as a list of recipients with the
    entry appended for each, in the order of the appends. *)
Definition resolved_recipients (email_column : string) : list string :=
  let email := PyStr.strip email_column in
  if PyStr.nonempty email then
    filter (fun x => PyStr.nonempty x = true)
           (map PyStr.strip (PyStr.split PyStr.comma email))
  else [].

Definition contribution (today : date) (r : row) : list (string * key_entry) :=
  match strip_keys r with
  | inl _ => []
  | inr c =>
      match expiry_date_str_of c with
      | None | Some EmptyString => []
      | Some expiry_date_str =>
          if is_na expiry_date_str then []
          else
            match Strptime.strptime expiry_date_str with
            | inl _ => []
            | inr parsed =>
                let d := days_left (dt_date parsed) today in
                if notifiable d then
                  match email_column_of c with
                  | None => []
                  | Some email_column =>
                      map (fun x => (x, KeyEntry (feed_name_of c) (key_name_of c)
                                          expiry_date_str d))
                          (resolved_recipients email_column)
                  end
                else []
            end
      end
  end.

Definition append_all (d : PyDict.pydict (list key_entry))
    (l : list (string * key_entry)) : PyDict.pydict (list key_entry) :=
  fold_left (fun d p => PyDict.setdefault_append (fst p) (snd p) d) l d.

End Consolidated.

(** ** Notions used in the statements *)

(** The transport fails on every attempt. *)
Definition always_fails (ses : transport) : Prop :=
  forall n req, exists e, ses n req = inl e.

Definition transport_down : transport :=
  fun _ _ => inl (OtherException "ClientError" "service unavailable").

(** A transport that delivers, and manifest rows used as concrete inputs. *)
Definition transport_up : transport := fun _ _ => inr "message-id".

Definition header : option (list string) :=
  Some ["GPG_Private_Key"; "GPG_Key_Expiry"; "PIC_Email"].

Definition mk_row (key expiry emails : string) : row :=
  Row [("GPG_Private_Key", Some key); ("GPG_Key_Expiry", Some expiry);
       ("PIC_Email", Some emails)] None.

Definition mk_feed_row (feed key expiry emails : string) : row :=
  Row [("Feed_Name", Some feed); ("GPG_Private_Key", Some key);
       ("GPG_Key_Expiry", Some expiry); ("PIC_Email", Some emails)] None.

(** The text N/A in any letter case. *)
Definition na_texts : list string := ["N/A"; "N/a"; "n/A"; "n/a"].

(** The resolution in the words of the specification: the aliases are tried
    in order and the first one whose cell holds a text that is not empty
    gives the field; the field is absent when there is none. *)
Fixpoint first_present (aliases : list string) (c : PyDict.cells)
    : option string :=
  match aliases with
  | [] => None
  | a :: rest =>
      match PyDict.get a c with
      | Some (String c0 s0) => Some (String c0 s0)
      | _ => first_present rest c
      end
  end.

Definition single_aliases : list string :=
  ["GPG_Key_Expiry"; "GPG_key_expiry"; "expiry_date"].

Definition consolidated_aliases : list string :=
  ["GPG_Key_Expiry"; "gpg_key_expiry"; "expiry_date"].

(** The failures that end a run as a whole: the manifest cannot be fetched,
    its header cannot be read, or the reader raises while it is iterated. *)
Definition top_level_failure (m : manifest) : option exn :=
  match m with
  | FetchFails e | HeaderFails e => Some e
  | Manifest _ _ stop => stop
  end.

(** The resolution in the words of the specification: split on commas, trim
    each segment, drop the empty ones. *)
Definition recipients_spec (field : string) : list string :=
  filter (fun x => PyStr.nonempty x = true)
         (map PyStr.strip (PyStr.split PyStr.comma field)).

(** The entries a list of appends holds for one recipient, in order. *)
Definition entries_for (k : string) (l : list (string * Consolidated.key_entry))
    : list Consolidated.key_entry :=
  map snd (filter (fun p => fst p = k) l).

(** The request [send_consolidated_email] builds for a recipient and its
    bundle. *)
Definition request_for (recipient : string) (keys : list Consolidated.key_entry)
    : ses_request :=
  SesRequest Consolidated.sender_email [recipient] Consolidated.subject
    (Consolidated.text_body keys) (Consolidated.html_body keys).

Definition is_sleep (e : event) : bool :=
  match e with Sleep _ => true | _ => false end.

(** Number of [time.sleep] calls in a trace. *)
Definition sleeps (t : list event) : nat := length (filter is_sleep t).

(** A row for which the single-key variant reaches its delivery: the
    expiry field is there, parses, and the days until expiry pass the
    test of line 61. *)
Definition single_due (today : Calendar.datetime) (r : row) : bool :=
  match SingleKey.expiry_date_str_of (row_cells r) with
  | Some (String c0 s0) =>
      match Strptime.strptime (String c0 s0) with
      | inr expiry =>
          SingleKey.notifiable (SingleKey.days_until_expiry expiry today)
      | inl _ => false
      end
  | _ => false
  end.

(** A list without its repetitions, every element kept where it first
    occurs. *)
Fixpoint first_seen (l : list string) : list string :=
  match l with
  | [] => []
  | k :: l' => k :: filter (fun x => x <> k) (first_seen l')
  end.

(** The texts of a list, one after the other. *)
Definition join (l : list string) : string := foldr String.append "" l.

(** * Properties *)

Ltac run_eff :=
  unfold Eff.bind, Eff.try_except, Eff.of_sum, Eff.ret, Eff.raise, Eff.print,
    Eff.sleep, Eff.emit, Eff.modify, Eff.get, Eff.send_email in *.

(** ** Dates and the two policies *)

Section Dates.
Import Calendar.

Lemma strptime_midnight (s : string) (t : datetime) :
  Strptime.strptime s = inr t -> t = midnight (dt_date t).
Proof.
  unfold Strptime.strptime.
  destruct (Strptime.re_match s) as [[[[d m] y] rest]|]; [|discriminate].
  destruct (PyStr.nonempty rest); [discriminate|].
  destruct (valid_date _); [|discriminate].
  intros [= <-]. reflexivity.
Qed.

Lemma valid_time_bounds (t : datetime) :
  valid_time t = true ->
  0 <= seconds_of_day t < 86400 /\ 0 <= microsecond t < 1000000.
Proof.
  unfold valid_time, seconds_of_day. intros H.
  repeat (apply andb_prop in H as [H ?]). lia.
Qed.

(** The single-key variant subtracts a clock reading from a midnight: the
    time of day of the reading takes one day off the difference of the two
    dates, unless the reading is itself a midnight. *)
Lemma single_days_until_expiry (expiry : date) (today : datetime) :
  valid_time today = true ->
  SingleKey.days_until_expiry (midnight expiry) today =
    toordinal expiry - toordinal (dt_date today)
    - (if (seconds_of_day today =? 0) && (microsecond today =? 0) then 0 else 1).
Proof.
  intros Hv. apply valid_time_bounds in Hv as [Hs Hu].
  unfold SingleKey.days_until_expiry, datetime_sub, mk_timedelta.
  cbn [days dt_date microsecond midnight].
  change (seconds_of_day (midnight expiry)) with 0.
  set (sd := seconds_of_day today) in *. set (us := microsecond today) in *.
  destruct (Z.eqb_spec sd 0) as [E1|E1];
    destruct (Z.eqb_spec us 0) as [E2|E2]; cbn [andb];
    Z.div_mod_to_equations; lia.
Qed.

(** The consolidated variant subtracts two dates. *)
Lemma consolidated_days_left (expiry today : date) :
  Consolidated.days_left expiry today = toordinal expiry - toordinal today.
Proof.
  unfold Consolidated.days_left, date_sub, mk_timedelta; cbn [days].
  change (0 + 0 / 1000000) with 0. change (0 / 86400) with 0. lia.
Qed.

End Dates.

Section Policies.
Import Calendar.

(** At a clock reading that is exactly a midnight, the single-key variant
    does notify for a key that expires 14 days after today. *)
Lemma single_fourteen_at_midnight (s : string) (expiry today : datetime) :
  valid_time today = true ->
  seconds_of_day today = 0 -> microsecond today = 0 ->
  Strptime.strptime s = inr expiry ->
  toordinal (dt_date expiry) = toordinal (dt_date today) + 14 ->
  SingleKey.notifiable (SingleKey.days_until_expiry expiry today) = true.
Proof.
  intros Hv Hs Hu Hp Hord.
  rewrite (strptime_midnight _ _ Hp), single_days_until_expiry by assumption.
  rewrite Hs, Hu, Hord. cbn [Z.eqb andb].
  replace (_ - _ - 0) with 14 by lia. reflexivity.
Qed.

(** C1: in the single-key variant, where the exact-or-soon policy lives,
    [today] is a clock reading with its time of day.  For a key whose expiry
    date is 14 calendar days after today's date the days until expiry come
    out as 13 at every reading that is not exactly a midnight, and the key is
    not notifiable. *)
Theorem C1_fourteen_days_clock_reading (s : string) (expiry today : datetime) :
  valid_time today = true ->
  (seconds_of_day today =? 0) && (microsecond today =? 0) = false ->
  Strptime.strptime s = inr expiry ->
  toordinal (dt_date expiry) = toordinal (dt_date today) + 14 ->
  SingleKey.days_until_expiry expiry today = 13 /\
  SingleKey.notifiable (SingleKey.days_until_expiry expiry today) = false.
Proof.
  intros Hv Hnz Hp Hord.
  rewrite (strptime_midnight _ _ Hp), single_days_until_expiry by assumption.
  rewrite Hnz, Hord.
  replace (_ - _ - 1) with 13 by lia. split; reflexivity.
Qed.

Lemma C1_fourteen_days_clock_reading_witness :
  let today := DateTime (Date 2024 1 1) 10 0 0 0 in
  let expiry := midnight (Date 2024 1 15) in
  valid_time today = true /\
  Strptime.strptime "15-01-2024" = inr expiry /\
  toordinal (dt_date expiry) = toordinal (dt_date today) + 14 /\
  SingleKey.days_until_expiry expiry today = 13 /\
  SingleKey.notifiable (SingleKey.days_until_expiry expiry today) = false.
Proof.
  repeat (split; [reflexivity|]).
  apply (C1_fourteen_days_clock_reading "15-01-2024"); reflexivity.
Defined.

(** C7: a key whose expiry date is five days after today's date is not
    notifiable under the exact-or-soon policy of the single-key variant, at
    any time of day, and is notifiable under the window policy of the
    consolidated variant. *)
Theorem C7_five_days_ahead (s : string) (expiry today : datetime) :
  valid_time today = true ->
  Strptime.strptime s = inr expiry ->
  toordinal (dt_date expiry) = toordinal (dt_date today) + 5 ->
  SingleKey.notifiable (SingleKey.days_until_expiry expiry today) = false /\
  Consolidated.notifiable
    (Consolidated.days_left (dt_date expiry) (dt_date today)) = true.
Proof.
  intros Hv Hp Hord. split.
  - rewrite (strptime_midnight _ _ Hp), single_days_until_expiry by assumption.
    rewrite Hord. unfold SingleKey.notifiable.
    destruct (_ && _); [replace (_ - _ - 0) with 5 by lia
                       |replace (_ - _ - 1) with 4 by lia]; reflexivity.
  - rewrite consolidated_days_left, Hord.
    replace (_ + 5 - _) with 5 by lia. reflexivity.
Qed.

Lemma C7_five_days_ahead_witness :
  let today := DateTime (Date 2024 1 1) 10 30 0 0 in
  let expiry := midnight (Date 2024 1 6) in
  valid_time today = true /\
  Strptime.strptime "06-01-2024" = inr expiry /\
  toordinal (dt_date expiry) = toordinal (dt_date today) + 5 /\
  SingleKey.notifiable (SingleKey.days_until_expiry expiry today) = false /\
  Consolidated.notifiable
    (Consolidated.days_left (dt_date expiry) (dt_date today)) = true.
Proof.
  repeat (split; [reflexivity|]).
  apply (C7_five_days_ahead "06-01-2024"); reflexivity.
Defined.

End Policies.

(** ** The counters of the single-key variant *)

Section SingleKeyCounters.
Import Calendar SingleKey.

(** Sending a mail assigns to no variable of its caller. *)
Lemma single_retry_loop_state {S} ses req key_name recipients attempts
    (s : S) (t : list event) :
  exists r t', retry_loop ses req key_name recipients attempts s t = (r, s, t').
Proof.
  revert t. induction attempts as [|attempt rest IH]; intros t; cbn [retry_loop].
  - run_eff. eauto.
  - run_eff. destruct (ses (sends t) req) as [e|response].
    + destruct (attempt <? max_retries - 1); [apply IH | eauto].
    + eauto.
Qed.

(** How the body of the inner [try] can end: without a notification, with
    one, or by an exception; only the first two leave [notified] as it was
    or one higher, and nothing else is assigned. *)
Lemma row_body_cases ses today r (s : stats) (t : list event) :
  exists t',
    row_body ses today r s t = (Ok tt, s, t') \/
    row_body ses today r s t =
      (Ok tt, Stats (processed s) (notified s + 1) (errors s), t') \/
    exists e, row_body ses today r s t = (Raise e, s, t').
Proof.
  unfold row_body.
  destruct (expiry_date_str_of (row_cells r)) as [[|c0 s0]|].
  1, 3: run_eff; eauto.
  set (str := String c0 s0).
  destruct (Strptime.strptime str) as [e|expiry_date]; run_eff; [eauto 6|].
  destruct (notifiable _); [|eauto].
  destruct (email_column_of (row_cells r)) as [email_column|]; [|eauto 6].
  unfold send_formatted_email.
  match goal with
  | |- context [retry_loop ?a ?b ?c ?d ?e ?f ?g] =>
      destruct (single_retry_loop_state a b c d e f g) as (res & t' & ->)
  end.
  destruct res; eauto 6.
Qed.

(** One turn of the loop over the rows never raises, adds one to
    [processed] and adds one to at most one of [notified] and [errors]. *)
Lemma process_row_step ses today r (s : stats) (t : list event) :
  exists s' t',
    process_row ses today r s t = (Ok tt, s', t') /\
    processed s' = processed s + 1 /\
    ((notified s' = notified s /\ errors s' = errors s) \/
     (notified s' = notified s + 1 /\ errors s' = errors s) \/
     (notified s' = notified s /\ errors s' = errors s + 1)).
Proof.
  unfold process_row. run_eff.
  match goal with
  | |- context [row_body ?a ?b ?c ?d ?e] =>
      destruct (row_body_cases a b c d e) as (t' & [-> | [-> | (e0 & ->)]])
  end; eexists _, _; (split; [reflexivity|]); cbn; auto.
Qed.

(** The state the loop over the rows is in after the rows [pre]. *)
Lemma single_loop_invariant ses today (pre : list row) (s : stats) t :
  notified s + errors s <= processed s ->
  exists s' t',
    for_each pre (process_row ses today) s t = (Ok tt, s', t') /\
    processed s' = processed s + Z.of_nat (length pre) /\
    notified s <= notified s' /\ errors s <= errors s' /\
    notified s' + errors s' <= processed s'.
Proof.
  revert s t. induction pre as [|r pre IH]; intros s t Hinv; cbn [for_each].
  - run_eff. eexists _, _. split; [reflexivity|]. cbn. lia.
  - unfold Eff.bind at 1.
    destruct (process_row_step ses today r s t) as (s1 & t1 & -> & Hp & Hc).
    destruct (IH s1 t1) as (s2 & t2 & -> & Hp2 & Hn & He & Hinv2); [lia|].
    eexists _, _. split; [reflexivity|].
    cbn [length]. lia.
Qed.

Lemma for_each_app {S A} (l1 l2 : list A) (body : A -> M S unit) s t :
  for_each (l1 ++ l2) body s t =
    match for_each l1 body s t with
    | (Ok _, s', t') => for_each l2 body s' t'
    | (Raise e, s', t') => (Raise e, s', t')
    end.
Proof.
  revert s t. induction l1 as [|x l1 IH]; intros s t; cbn [for_each app].
  - reflexivity.
  - unfold Eff.bind. destruct (body x s t) as [[[[]|e] s'] t']; auto.
Qed.

(** A run whose reader stops normally ends with status 200 and with the
    counters of the loop. *)
Lemma single_run_counters fieldnames rows ses today :
  exists s t,
    lambda_handler (Manifest fieldnames rows None) ses today =
      (Ok (Response 200
             ("Processed " +:+ pretty (processed s) +:+ " keys, sent " +:+
              pretty (notified s) +:+ " notifications")), s, t) /\
    processed s = Z.of_nat (length rows) /\
    0 <= notified s /\ 0 <= errors s /\
    notified s + errors s <= processed s.
Proof.
  unfold lambda_handler, run, Eff.for_rows. run_eff.
  match goal with
  | |- context [for_each rows ?b ?s ?t] =>
      destruct (single_loop_invariant ses today rows s t)
        as (s' & t' & -> & Hp & Hn & He & Hinv); [cbn; lia|]
  end.
  eexists _, _. split; [reflexivity|]. cbn in *. lia.
Qed.

(** C10: in the single-key variant every turn of the loop over the rows
    adds one to [processed] and one to at most one of [notified] and
    [errors]; so [notified + errors <= processed] holds after any number of
    rows [pre] of a manifest [pre ++ post], and at the end of the run. *)
Theorem C10_single_key_counters ses today :
  (forall r s t, exists s' t',
     process_row ses today r s t = (Ok tt, s', t') /\
     processed s' = processed s + 1 /\
     ((notified s' = notified s /\ errors s' = errors s) \/
      (notified s' = notified s + 1 /\ errors s' = errors s) \/
      (notified s' = notified s /\ errors s' = errors s + 1))) /\
  (forall pre post t0, exists s1 t1,
     for_each pre (process_row ses today) (Stats 0 0 0) t0 = (Ok tt, s1, t1) /\
     for_each (pre ++ post) (process_row ses today) (Stats 0 0 0) t0 =
       for_each post (process_row ses today) s1 t1 /\
     processed s1 = Z.of_nat (length pre) /\
     notified s1 + errors s1 <= processed s1) /\
  (forall fieldnames rows, exists r s t,
     lambda_handler (Manifest fieldnames rows None) ses today = (Ok r, s, t) /\
     processed s = Z.of_nat (length rows) /\
     notified s + errors s <= processed s).
Proof.
  split; [|split].
  - intros r s t. apply process_row_step.
  - intros pre post t0.
    destruct (single_loop_invariant ses today pre (Stats 0 0 0) t0)
      as (s1 & t1 & Hrun & Hp & _ & _ & Hinv); [cbn; lia|].
    exists s1, t1. rewrite for_each_app, Hrun. cbn in Hp. auto with lia.
  - intros fieldnames rows.
    destruct (single_run_counters fieldnames rows ses today)
      as (s & t & Hrun & Hp & _ & _ & Hinv).
    eauto 6.
Qed.

End SingleKeyCounters.

(** ** The rows of the consolidated variant *)

Section ConsolidatedRows.
Import Calendar Consolidated.

Lemma sends_app (t1 t2 : list event) : sends (t1 ++ t2) = (sends t1 + sends t2)%nat.
Proof. unfold sends. rewrite filter_app, length_app. reflexivity. Qed.

Lemma sends_print (t : list event) l : sends (t ++ [Print l]) = sends t.
Proof. rewrite sends_app. change (sends [Print l]) with 0%nat. lia. Qed.

Lemma sends_sleep (t : list event) n : sends (t ++ [Sleep n]) = sends t.
Proof. rewrite sends_app. change (sends [Sleep n]) with 0%nat. lia. Qed.

Lemma sends_send (t : list event) r : sends (t ++ [SendEmail r]) = S (sends t).
Proof. rewrite sends_app. change (sends [SendEmail r]) with 1%nat. lia. Qed.

Lemma add_recipients_run entry (segs : list string) (s : locals) t :
  for_each segs (add_recipient entry) s t =
    (Ok tt,
     Locals (processed s)
       (append_all (recipient_keys s)
          (map (fun x => (x, entry))
               (filter (fun x => PyStr.nonempty x = true) (map PyStr.strip segs))))
       (notifications_sent s) (row_var s),
     t).
Proof.
  revert s. induction segs as [|seg segs IH]; intros s; cbn [for_each].
  - destruct s; reflexivity.
  - unfold Eff.bind, add_recipient at 1. cbn [map].
    rewrite filter_cons.
    destruct (PyStr.nonempty (PyStr.strip seg)) eqn:E.
    + rewrite decide_True by reflexivity. unfold Eff.modify.
      rewrite IH. reflexivity.
    + rewrite decide_False by discriminate. unfold Eff.ret.
      rewrite IH. reflexivity.
Qed.

(** One turn of the loop over the rows never raises; it appends the row's
    contribution to [recipient_keys], leaves [notifications_sent] alone, adds
    nothing or one to [processed], and sends no mail. *)
Lemma consolidated_process_row today r (s : locals) t :
  exists p' rv t',
    process_row today r s t =
      (Ok tt,
       Locals p' (append_all (recipient_keys s) (contribution today r))
              (notifications_sent s) rv,
       t') /\
    (p' = processed s \/ p' = processed s + 1) /\
    sends t' = sends t.
Proof.
  unfold process_row, row_body, contribution, resolved_recipients. run_eff.
  destruct (strip_keys r) as [e|c]; cbn [recipient_keys notifications_sent].
  { eexists _, _, _. split; [reflexivity|]. rewrite !sends_print. auto. }
  destruct (expiry_date_str_of c) as [[|c0 s0]|].
  1, 3: eexists _, _, _; (split; [reflexivity|]); rewrite !sends_print; auto.
  set (str := String c0 s0).
  destruct (is_na str).
  { eexists _, _, _. split; [reflexivity|]. rewrite !sends_print. auto. }
  destruct (Strptime.strptime str) as [e|parsed].
  { eexists _, _, _. split; [reflexivity|]. rewrite !sends_print. auto. }
  destruct (notifiable _).
  2: { eexists _, _, _. split; [reflexivity|]. rewrite !sends_print. auto. }
  destruct (email_column_of c) as [email_column|].
  2: { eexists _, _, _. split; [reflexivity|]. rewrite !sends_print. auto. }
  destruct (PyStr.nonempty (PyStr.strip email_column)).
  2: { eexists _, _, _. split; [reflexivity|]. rewrite !sends_print. auto. }
  rewrite add_recipients_run.
  eexists _, _, _. split; [reflexivity|]. rewrite !sends_print. auto.
Qed.

End ConsolidatedRows.

(** ** Delivery with a transport that is down *)

Section Delivery.
Import Calendar.
Variable ses : transport.
Hypothesis down : always_fails ses.

Ltac fail_call :=
  match goal with
  | |- context [ses ?n ?r] =>
      let e := fresh "e" in let E := fresh "E" in
      destruct (down n r) as [e E]; rewrite E; cbv beta iota
  end.

(** The single-key delivery: three calls of the transport, a pause after
    the first and after the second, then the last exception is raised. *)
Lemma single_delivery_exhausted {S} sender recipients key_name expiry_date
    days_remaining (s : S) (t : list event) :
  let req := SesRequest sender recipients (SingleKey.subject key_name)
               (SingleKey.text_body key_name expiry_date days_remaining)
               (SingleKey.html_body key_name expiry_date days_remaining) in
  exists e,
    SingleKey.send_formatted_email ses sender recipients key_name expiry_date
      days_remaining s t =
    (Raise e, s,
     t ++ [SendEmail req; Print (LogAttemptFailed 1 key_name None); Sleep 1;
           SendEmail req; Print (LogAttemptFailed 2 key_name None); Sleep 1;
           SendEmail req; Print (LogAllFailed 3 key_name)]).
Proof.
  intros req. unfold SingleKey.send_formatted_email. fold req.
  change (Py.range SingleKey.max_retries) with [0; 1; 2].
  cbn [SingleKey.retry_loop]. run_eff.
  change (0 <? SingleKey.max_retries - 1) with true.
  change (1 <? SingleKey.max_retries - 1) with true.
  change (2 <? SingleKey.max_retries - 1) with false.
  cbv beta iota. do 3 fail_call.
  exists e1. rewrite <- !app_assoc. reflexivity.
Qed.

(** The consolidated delivery: three calls of the transport, then 0 is
    returned. *)
Lemma consolidated_delivery_exhausted {S} recipient key_data sender
    (s : S) (t : list event) :
  let req := SesRequest sender [recipient] Consolidated.subject
               (Consolidated.text_body key_data)
               (Consolidated.html_body key_data) in
  exists e1 e2 e3,
    Consolidated.send_consolidated_email ses recipient key_data sender s t =
    (Ok 0, s,
     t ++ [SendEmail req; Print (LogAttemptFailed 1 recipient (Some e1));
           SendEmail req; Print (LogAttemptFailed 2 recipient (Some e2));
           SendEmail req; Print (LogAttemptFailed 3 recipient (Some e3));
           Print (LogAllFailed 3 recipient)]).
Proof.
  intros req. unfold Consolidated.send_consolidated_email. fold req.
  change (Py.range Consolidated.max_retries) with [0; 1; 2].
  cbn [Consolidated.retry_loop]. run_eff.
  do 3 fail_call.
  exists e, e0, e1. rewrite <- !app_assoc. reflexivity.
Qed.

End Delivery.

(** C5: with a transport that fails on every attempt, each delivery client
    calls it exactly three times.  The single-key client then raises, and
    its caller counts an error for the row, sends no notification for it and
    goes on with the next row; the consolidated client returns 0, and its
    caller adds nothing to [notifications_sent] and goes on with the next
    recipient. *)
Theorem C5_retries_exhausted (ses : transport) :
  always_fails ses ->
  (forall sender recipients key_name expiry_date days_remaining
          (s : SingleKey.stats) t,
     exists e t',
       SingleKey.send_formatted_email ses sender recipients key_name
         expiry_date days_remaining s t = (Raise e, s, t') /\
       sends t' = (sends t + 3)%nat) /\
  (forall today r str expiry email_column (s : SingleKey.stats) t,
     SingleKey.expiry_date_str_of (row_cells r) = Some str ->
     PyStr.nonempty str = true ->
     Strptime.strptime str = inr expiry ->
     SingleKey.notifiable (SingleKey.days_until_expiry expiry today) = true ->
     SingleKey.email_column_of (row_cells r) = Some email_column ->
     exists t',
       SingleKey.process_row ses today r s t =
         (Ok tt,
          SingleKey.Stats (SingleKey.processed s + 1) (SingleKey.notified s)
                          (SingleKey.errors s + 1),
          t') /\
       sends t' = (sends t + 3)%nat /\
       forall rest,
         for_each (r :: rest) (SingleKey.process_row ses today) s t =
         for_each rest (SingleKey.process_row ses today)
           (SingleKey.Stats (SingleKey.processed s + 1) (SingleKey.notified s)
                            (SingleKey.errors s + 1)) t') /\
  (forall recipient key_data sender (s : Consolidated.locals) t,
     exists t',
       Consolidated.send_consolidated_email ses recipient key_data sender s t =
         (Ok 0, s, t') /\
       sends t' = (sends t + 3)%nat) /\
  (forall items (s : Consolidated.locals) t,
     exists t',
       for_each items (Consolidated.notify ses) s t = (Ok tt, s, t') /\
       sends t' = (sends t + 3 * length items)%nat).
Proof.
  intros down. split; [|split; [|split]].
  - intros. 
    destruct (single_delivery_exhausted ses down sender recipients key_name
                expiry_date days_remaining s t) as [e ->].
    eexists _, _. split; [reflexivity|].
    rewrite sends_app. reflexivity.
  - intros today r str expiry email_column s t Hstr Hne Hparse Hnot Hcol.
    assert (exists t',
      SingleKey.process_row ses today r s t =
        (Ok tt,
         SingleKey.Stats (SingleKey.processed s + 1) (SingleKey.notified s)
                         (SingleKey.errors s + 1),
         t') /\ sends t' = (sends t + 3)%nat) as (t' & Hrun & Hsends).
    { unfold SingleKey.process_row, SingleKey.row_body.
      rewrite Hstr. destruct str as [|c0 s0]; [discriminate|].
      rewrite Hparse, Hcol.
      unfold Eff.bind at 1 2 3 4 5. unfold Eff.modify at 1, Eff.print at 1 2.
      unfold Eff.emit, Eff.of_sum, Eff.ret, Eff.try_except.
      rewrite Hnot. unfold Eff.bind at 1 2.
      match goal with
      | |- context [SingleKey.send_formatted_email ses ?a ?b ?c ?d ?e ?f ?g] =>
          destruct (single_delivery_exhausted ses down a b c d e f g) as [e0 ->]
      end.
      run_eff. eexists. split; [reflexivity|].
      rewrite !sends_print, sends_app, !sends_print. reflexivity. }
    exists t'. split; [exact Hrun|]. split; [exact Hsends|].
    intros rest. cbn [for_each]. unfold Eff.bind at 1. rewrite Hrun. reflexivity.
  - intros.
    destruct (consolidated_delivery_exhausted ses down recipient key_data
                sender s t) as (e1 & e2 & e3 & ->).
    eexists. split; [reflexivity|]. rewrite sends_app. reflexivity.
  - intros items. induction items as [|[recipient keys] items IH]; intros s t.
    + exists t. split; [reflexivity|]. cbn. lia.
    + cbn [for_each]. unfold Eff.bind at 1. unfold Consolidated.notify at 1.
      cbn [fst snd]. unfold Eff.bind at 1. unfold Eff.print at 1, Eff.emit.
      unfold Eff.try_except, Eff.bind at 1.
      match goal with
      | |- context [Consolidated.send_consolidated_email ses ?a ?b ?c ?d ?e] =>
          destruct (consolidated_delivery_exhausted ses down a b c d e)
            as (e1 & e2 & e3 & ->)
      end.
      unfold Eff.modify.
      replace (Consolidated.Locals _ _ (Consolidated.notifications_sent s + 0) _)
        with s by (destruct s; cbn; f_equal; lia).
      match goal with
      | |- context [for_each items _ s ?t1] =>
          destruct (IH s t1) as (t' & -> & Hs)
      end.
      exists t'. split; [reflexivity|].
      rewrite Hs, sends_app, sends_print. cbn [length]. 
      change (sends [SendEmail _; _; SendEmail _; _; SendEmail _; _; _]) with 3%nat.
      lia.
Qed.

Lemma C5_retries_exhausted_witness :
  let r := mk_row "K1" "03-01-2024" "r@x.com" in
  let today := Calendar.DateTime (Calendar.Date 2024 1 1) 10 0 0 0 in
  always_fails transport_down /\
  (exists t',
     SingleKey.process_row transport_down today r (SingleKey.Stats 0 0 0) [] =
       (Ok tt, SingleKey.Stats 1 0 1, t') /\
     sends t' = 3%nat) /\
  (exists t',
     for_each [("r@x.com", [])] (Consolidated.notify transport_down)
       (Consolidated.Locals 1 [("r@x.com", [])] 0 []) [] =
       (Ok tt, Consolidated.Locals 1 [("r@x.com", [])] 0 [], t') /\
     sends t' = 3%nat).
Proof.
  intros r today.
  assert (H : always_fails transport_down) by (intros n req; eexists; reflexivity).
  split; [exact H|].
  destruct (C5_retries_exhausted transport_down H) as (_ & Hrow & _ & Hloop).
  split.
  - destruct (Hrow today r "03-01-2024"
                (Calendar.midnight (Calendar.Date 2024 1 3)) "r@x.com"
                (SingleKey.Stats 0 0 0) [] eq_refl eq_refl eq_refl eq_refl eq_refl)
      as (t' & Hrun & Hsends & _).
    exists t'. split; assumption.
  - apply (Hloop [("r@x.com", [])]).
Defined.

(** ** Rows whose expiry date does not parse *)

Section Unparseable.
Import Calendar.

Lemma single_unparseable_row ses today r str e (s : SingleKey.stats) t :
  SingleKey.expiry_date_str_of (row_cells r) = Some str ->
  PyStr.nonempty str = true ->
  Strptime.strptime str = inl e ->
  SingleKey.process_row ses today r s t =
    (Ok tt,
     SingleKey.Stats (SingleKey.processed s + 1) (SingleKey.notified s)
                     (SingleKey.errors s + 1),
     t ++ [Print (LogProcessingRow r);
           Print (LogErrorProcessing (SingleKey.error_key_of (row_cells r)) e)]).
Proof.
  intros Hstr Hne Hparse.
  unfold SingleKey.process_row, SingleKey.row_body.
  rewrite Hstr. destruct str as [|c0 s0]; [discriminate|].
  rewrite Hparse. run_eff. rewrite <- !app_assoc. reflexivity.
Qed.

Lemma consolidated_unparseable_row today r c str e (s : Consolidated.locals) t :
  Consolidated.strip_keys r = inr c ->
  Consolidated.expiry_date_str_of c = Some str ->
  PyStr.nonempty str = true ->
  Strptime.strptime str = inl e ->
  exists l,
    Consolidated.process_row today r s t =
      (Ok tt,
       Consolidated.Locals (Consolidated.processed s)
         (Consolidated.recipient_keys s) (Consolidated.notifications_sent s) c,
       t ++ [Print (LogProcessingRow r); Print l]).
Proof.
  intros Hc Hstr Hne Hparse.
  unfold Consolidated.process_row, Consolidated.row_body.
  rewrite Hc. run_eff. cbv beta iota. rewrite Hstr.
  destruct str as [|c0 s0]; [discriminate|].
  destruct (Consolidated.is_na _).
  - eexists. rewrite <- !app_assoc. reflexivity.
  - rewrite Hparse. eexists. rewrite <- !app_assoc. reflexivity.
Qed.

End Unparseable.

(** C6, as amended: a row whose expiry field is present and does not parse
    as DD-MM-YYYY never stops the run.  In the single-key variant the row is
    counted in [processed] and in [errors], no mail is sent for it and the
    loop goes on with the next row.  In the consolidated variant the row is
    logged and left out of [recipient_keys]; that variant keeps no error
    counter, and [processed] and [notifications_sent] stay as they were. *)
Theorem C6_unparseable_expiry (r : row) (str : string) (e : exn) :
  PyStr.nonempty str = true ->
  Strptime.strptime str = inl e ->
  (forall ses today (s : SingleKey.stats) t rest,
     SingleKey.expiry_date_str_of (row_cells r) = Some str ->
     let s' := SingleKey.Stats (SingleKey.processed s + 1) (SingleKey.notified s)
                               (SingleKey.errors s + 1) in
     let t' := t ++ [Print (LogProcessingRow r);
                     Print (LogErrorProcessing
                              (SingleKey.error_key_of (row_cells r)) e)] in
     SingleKey.process_row ses today r s t = (Ok tt, s', t') /\
     for_each (r :: rest) (SingleKey.process_row ses today) s t =
       for_each rest (SingleKey.process_row ses today) s' t') /\
  (forall today c (s : Consolidated.locals) t rest,
     Consolidated.strip_keys r = inr c ->
     Consolidated.expiry_date_str_of c = Some str ->
     exists l,
       let s' := Consolidated.Locals (Consolidated.processed s)
                   (Consolidated.recipient_keys s)
                   (Consolidated.notifications_sent s) c in
       let t' := t ++ [Print (LogProcessingRow r); Print l] in
       Consolidated.process_row today r s t = (Ok tt, s', t') /\
       for_each (r :: rest) (Consolidated.process_row today) s t =
         for_each rest (Consolidated.process_row today) s' t').
Proof.
  intros Hne Hparse. split.
  - intros ses today s t rest Hstr s' t'.
    assert (SingleKey.process_row ses today r s t = (Ok tt, s', t')) as Hrun
      by (eapply single_unparseable_row; eassumption).
    split; [exact Hrun|].
    cbn [for_each]. unfold Eff.bind at 1. rewrite Hrun. reflexivity.
  - intros today c s t rest Hc Hstr.
    destruct (consolidated_unparseable_row today r c str e s t Hc Hstr Hne Hparse)
      as [l Hrun].
    exists l. cbv zeta. split; [exact Hrun|].
    cbn [for_each]. unfold Eff.bind at 1. rewrite Hrun. reflexivity.
Qed.

Lemma C6_unparseable_expiry_witness :
  let r := mk_row "K1" "2024-01-01" "r@x.com" in
  let e := ValueError "time data does not match format" in
  PyStr.nonempty "2024-01-01" = true /\
  Strptime.strptime "2024-01-01" = inl e /\
  SingleKey.process_row transport_up
    (Calendar.DateTime (Calendar.Date 2024 1 1) 10 0 0 0) r
    (SingleKey.Stats 0 0 0) [] =
    (Ok tt, SingleKey.Stats 1 0 1,
     [Print (LogProcessingRow r); Print (LogErrorProcessing (Some "K1") e)]) /\
  exists l,
    Consolidated.process_row (Calendar.Date 2024 1 1) r
      (Consolidated.Locals 0 [] 0 []) [] =
      (Ok tt, Consolidated.Locals 0 [] 0 (row_cells r),
       [Print (LogProcessingRow r); Print l]).
Proof.
  intros r e. split; [reflexivity|]. split; [reflexivity|].
  destruct (C6_unparseable_expiry r "2024-01-01" e eq_refl eq_refl)
    as [Hsingle Hcons].
  split.
  - apply (Hsingle transport_up
             (Calendar.DateTime (Calendar.Date 2024 1 1) 10 0 0 0)
             (SingleKey.Stats 0 0 0) [] [] eq_refl).
  - destruct (Hcons (Calendar.Date 2024 1 1) (row_cells r)
                (Consolidated.Locals 0 [] 0 []) [] [] eq_refl eq_refl)
      as (l & Hrun & _).
    exists l. exact Hrun.
Defined.

(** Where the claim fails: the consolidated variant ends a run over one row
    with the expiry text 2024-01-01 with every counter it keeps at 0; the
    failure is only logged. *)
Lemma C6_counterexample :
  let r := mk_row "K1" "2024-01-01" "r@x.com" in
  Consolidated.lambda_handler (Manifest header [r] None) transport_up
    (Calendar.Date 2024 1 1) =
  (Ok tt,
   Consolidated.Locals 0 [] 0 (row_cells r),
   [Print (LogColumns header);
    Print (LogCurrentDate (Calendar.Date 2024 1 1));
    Print (LogProcessingRow r);
    Print (LogErrorProcessing (Some "K1")
             (ValueError "time data does not match format"));
    Print (LogSummarySent 0 0)]).
Proof. reflexivity. Qed.

(** ** The text N/A in the expiry field *)

Section NotApplicable.
Import Calendar.

Lemma sapp_cons (c : ascii) (s x : string) :
  String c s +:+ x = String c (s +:+ x).
Proof. reflexivity. Qed.

Lemma sapp_nil (x : string) : EmptyString +:+ x = x.
Proof. reflexivity. Qed.

Lemma lstrip_app_space (pre x : string) :
  PyStr.all_space pre = true -> PyStr.lstrip (pre +:+ x) = PyStr.lstrip x.
Proof.
  induction pre as [|c pre IH]; rewrite ?sapp_cons, ?sapp_nil; cbn [PyStr.lstrip PyStr.rstrip PyStr.all_space]; [reflexivity|].
  intros [Hc Hpre]%andb_prop. rewrite Hc. auto.
Qed.

Lemma rstrip_all_space (post : string) :
  PyStr.all_space post = true -> PyStr.rstrip post = EmptyString.
Proof.
  induction post as [|c post IH]; rewrite ?sapp_cons, ?sapp_nil; cbn [PyStr.lstrip PyStr.rstrip PyStr.all_space]; [reflexivity|].
  intros [Hc Hpost]%andb_prop. rewrite IH, Hc by assumption. reflexivity.
Qed.

Lemma rstrip_app_space (x post : string) :
  PyStr.all_space post = true -> PyStr.rstrip (x +:+ post) = PyStr.rstrip x.
Proof.
  intros Hpost. induction x as [|c x IH]; rewrite ?sapp_cons, ?sapp_nil; cbn [PyStr.lstrip PyStr.rstrip PyStr.all_space].
  - apply rstrip_all_space, Hpost.
  - rewrite IH. reflexivity.
Qed.

(** Padding a text with white space on both sides does not change what
    [strip] returns. *)
Lemma strip_padded (pre x post : string) :
  PyStr.all_space pre = true -> PyStr.all_space post = true ->
  PyStr.strip (pre +:+ x +:+ post) = PyStr.rstrip (PyStr.lstrip (x +:+ post)).
Proof.
  intros Hpre Hpost. unfold PyStr.strip. rewrite lstrip_app_space by assumption.
  reflexivity.
Qed.

Lemma is_na_padded (pre body post : string) :
  PyStr.all_space pre = true -> PyStr.all_space post = true ->
  In body na_texts ->
  Consolidated.is_na (pre +:+ body +:+ post) = true.
Proof.
  intros Hpre Hpost Hbody. unfold Consolidated.is_na.
  rewrite strip_padded by assumption.
  assert (PyStr.lstrip (body +:+ post) = body +:+ post) as ->.
  { cbn in Hbody. intuition subst; reflexivity. }
  rewrite rstrip_app_space by assumption.
  cbn in Hbody. intuition subst; reflexivity.
Qed.

Lemma padded_nonempty (pre body post : string) :
  In body na_texts -> PyStr.nonempty (pre +:+ body +:+ post) = true.
Proof.
  intros Hbody. destruct pre; [|reflexivity].
  cbn in Hbody. intuition subst; reflexivity.
Qed.

Lemma space_not_in_range (c : ascii) (lo hi : N) :
  PyStr.isspace c = true -> (33 <= lo)%N -> Strptime.in_range lo hi c = false.
Proof.
  unfold PyStr.isspace, Strptime.in_range. intros H Hlo.
  destruct (N.leb_spec lo (PyStr.code c)); [|reflexivity].
  apply orb_prop in H as [H|H]; apply andb_prop in H as [_ H];
    apply N.leb_le in H; lia.
Qed.

Lemma space_not_char (c : ascii) (n : N) :
  PyStr.isspace c = true -> (33 <= n)%N -> Strptime.is_char n c = false.
Proof. apply space_not_in_range. Qed.

(** No padded N/A matches the expression of [strptime]. *)
Lemma strptime_na_padded (pre body post : string) :
  PyStr.all_space pre = true -> PyStr.all_space post = true ->
  In body na_texts ->
  Strptime.strptime (pre +:+ body +:+ post) =
    inl (ValueError "time data does not match format").
Proof.
  intros Hpre Hpost Hbody. unfold Strptime.strptime.
  assert (Strptime.re_match (pre +:+ body +:+ post) = None) as ->; [|reflexivity].
  unfold Strptime.re_match, Strptime.group_d.
  destruct pre as [|c pre].
  - cbn in Hbody. intuition subst; reflexivity.
  - rewrite sapp_cons. cbn [PyStr.all_space] in Hpre.
    apply andb_prop in Hpre as [Hc Hpre].
    cbn [Strptime.match_group Strptime.match_alt].
    rewrite (space_not_char c 51), (space_not_char c 48),
      (space_not_in_range c 49 50), (space_not_in_range c 49 57)
      by (assumption || lia).
    destruct (Strptime.is_char 32 c); [|reflexivity].
    destruct pre as [|c' pre].
    + cbn in Hbody. intuition subst; reflexivity.
    + rewrite sapp_cons. cbn [PyStr.all_space] in Hpre.
      apply andb_prop in Hpre as [Hc' Hpre].
      rewrite (space_not_in_range c' 49 57) by (assumption || lia). reflexivity.
Qed.

End NotApplicable.

(** C2, as amended: in the consolidated variant a row whose expiry field is
    N/A, in any letter case and with white space around it, is skipped with a
    log line: nothing is added to [recipient_keys], no counter changes, no
    mail is sent, and the loop goes on with the next row.  The single-key
    variant has no case for N/A: there the text fails to parse as a date, so
    the row yields no notification and is counted in [errors]. *)
Theorem C2_not_applicable (r : row) (pre body post : string) :
  PyStr.all_space pre = true ->
  PyStr.all_space post = true ->
  In body na_texts ->
  (forall today c (s : Consolidated.locals) t rest,
     Consolidated.strip_keys r = inr c ->
     Consolidated.expiry_date_str_of c = Some (pre +:+ body +:+ post) ->
     let s' := Consolidated.Locals (Consolidated.processed s)
                 (Consolidated.recipient_keys s)
                 (Consolidated.notifications_sent s) c in
     let t' := t ++ [Print (LogProcessingRow r);
                     Print (LogNoExpiry (Consolidated.key_name_of c))] in
     Consolidated.process_row today r s t = (Ok tt, s', t') /\
     for_each (r :: rest) (Consolidated.process_row today) s t =
       for_each rest (Consolidated.process_row today) s' t') /\
  (forall ses today (s : SingleKey.stats) t,
     SingleKey.expiry_date_str_of (row_cells r) = Some (pre +:+ body +:+ post) ->
     SingleKey.process_row ses today r s t =
       (Ok tt,
        SingleKey.Stats (SingleKey.processed s + 1) (SingleKey.notified s)
                        (SingleKey.errors s + 1),
        t ++ [Print (LogProcessingRow r);
              Print (LogErrorProcessing (SingleKey.error_key_of (row_cells r))
                       (ValueError "time data does not match format"))])).
Proof.
  intros Hpre Hpost Hbody. split.
  - intros today c s t rest Hc Hstr s' t'.
    assert (Consolidated.process_row today r s t = (Ok tt, s', t')) as Hrun.
    { unfold Consolidated.process_row, Consolidated.row_body.
      rewrite Hc. run_eff. cbv beta iota. rewrite Hstr.
      pose proof (padded_nonempty pre body post Hbody) as Hne.
      destruct (pre +:+ body +:+ post) as [|c0 s0] eqn:E; [discriminate|].
      rewrite <- E, is_na_padded by assumption.
      subst s' t'. rewrite <- !app_assoc. reflexivity. }
    split; [exact Hrun|].
    cbn [for_each]. unfold Eff.bind at 1. rewrite Hrun. reflexivity.
  - intros ses today s t Hstr.
    apply single_unparseable_row with (str := pre +:+ body +:+ post).
    + exact Hstr.
    + apply padded_nonempty, Hbody.
    + apply strptime_na_padded; assumption.
Qed.

Lemma C2_not_applicable_witness :
  let r := mk_row "K1" "  n/a " "r@x.com" in
  PyStr.all_space "  " = true /\
  PyStr.all_space " " = true /\
  In "n/a" na_texts /\
  Consolidated.process_row (Calendar.Date 2024 1 1) r
    (Consolidated.Locals 0 [] 0 []) [] =
    (Ok tt, Consolidated.Locals 0 [] 0 (row_cells r),
     [Print (LogProcessingRow r); Print (LogNoExpiry "K1")]) /\
  SingleKey.process_row transport_up
    (Calendar.DateTime (Calendar.Date 2024 1 1) 10 0 0 0) r
    (SingleKey.Stats 0 0 0) [] =
    (Ok tt, SingleKey.Stats 1 0 1,
     [Print (LogProcessingRow r);
      Print (LogErrorProcessing (Some "K1")
               (ValueError "time data does not match format"))]).
Proof.
  intros r.
  assert (In "n/a" na_texts) as Hin by (cbn; auto).
  split; [reflexivity|]. split; [reflexivity|]. split; [exact Hin|].
  destruct (C2_not_applicable r "  " "n/a" " " eq_refl eq_refl Hin)
    as [Hcons Hsingle].
  split.
  - apply (Hcons (Calendar.Date 2024 1 1) (row_cells r)
             (Consolidated.Locals 0 [] 0 []) [] [] eq_refl eq_refl).
  - apply (Hsingle transport_up
             (Calendar.DateTime (Calendar.Date 2024 1 1) 10 0 0 0)
             (SingleKey.Stats 0 0 0) [] eq_refl).
Defined.

(** Where the claim fails: the single-key variant ends a run over one row
    with the expiry text N/A with [errors] at 1. *)
Lemma C2_counterexample :
  let r := mk_row "K1" "N/A" "r@x.com" in
  SingleKey.lambda_handler (Manifest header [r] None) transport_up
    (Calendar.DateTime (Calendar.Date 2024 1 1) 10 0 0 0) =
  (Ok (SingleKey.Response 200 "Processed 1 keys, sent 0 notifications"),
   SingleKey.Stats 1 0 1,
   [Print (LogColumns header);
    Print (LogCurrentDate (Calendar.Date 2024 1 1));
    Print (LogProcessingRow r);
    Print (LogErrorProcessing (Some "K1")
             (ValueError "time data does not match format"));
    Print (LogSummary 1 0 1)]).
Proof. reflexivity. Qed.

(** ** The header aliases of the expiry date *)

Section Aliases.

Lemma single_expiry_resolution (c : PyDict.cells) :
  match first_present single_aliases c with
  | Some v => SingleKey.expiry_date_str_of c = Some v
  | None => PyStr.truthy (SingleKey.expiry_date_str_of c) = false
  end.
Proof.
  unfold SingleKey.expiry_date_str_of, single_aliases, first_present, PyStr.or_.
  destruct (PyDict.get "GPG_Key_Expiry" c) as [[|? ?]|];
    destruct (PyDict.get "GPG_key_expiry" c) as [[|? ?]|];
    destruct (PyDict.get "expiry_date" c) as [[|? ?]|]; reflexivity.
Qed.

Lemma consolidated_expiry_resolution (c : PyDict.cells) :
  match first_present consolidated_aliases c with
  | Some v => Consolidated.expiry_date_str_of c = Some v
  | None => PyStr.truthy (Consolidated.expiry_date_str_of c) = false
  end.
Proof.
  unfold Consolidated.expiry_date_str_of, consolidated_aliases, first_present,
    PyStr.or_.
  destruct (PyDict.get "GPG_Key_Expiry" c) as [[|? ?]|];
    destruct (PyDict.get "gpg_key_expiry" c) as [[|? ?]|];
    destruct (PyDict.get "expiry_date" c) as [[|? ?]|]; reflexivity.
Qed.

Lemma single_absent_row ses today r (s : SingleKey.stats) t :
  PyStr.truthy (SingleKey.expiry_date_str_of (row_cells r)) = false ->
  SingleKey.process_row ses today r s t =
    (Ok tt,
     SingleKey.Stats (SingleKey.processed s + 1) (SingleKey.notified s)
                     (SingleKey.errors s),
     t ++ [Print (LogProcessingRow r);
           Print (LogNoExpiry (SingleKey.key_name_of (row_cells r)))]).
Proof.
  intros H. unfold SingleKey.process_row, SingleKey.row_body.
  destruct (SingleKey.expiry_date_str_of (row_cells r)) as [[|? ?]|];
    try discriminate; run_eff; rewrite <- !app_assoc; reflexivity.
Qed.

Lemma consolidated_absent_row today r c (s : Consolidated.locals) t :
  Consolidated.strip_keys r = inr c ->
  PyStr.truthy (Consolidated.expiry_date_str_of c) = false ->
  Consolidated.process_row today r s t =
    (Ok tt,
     Consolidated.Locals (Consolidated.processed s)
       (Consolidated.recipient_keys s) (Consolidated.notifications_sent s) c,
     t ++ [Print (LogProcessingRow r);
           Print (LogNoExpiry (Consolidated.key_name_of c))]).
Proof.
  intros Hc H. unfold Consolidated.process_row, Consolidated.row_body.
  rewrite Hc. run_eff. cbv beta iota.
  destruct (Consolidated.expiry_date_str_of c) as [[|? ?]|];
    try discriminate; rewrite <- !app_assoc; reflexivity.
Qed.

End Aliases.

(** C8: the single-key variant resolves the expiry date of every row as
    stated: it is the first of GPG_Key_Expiry, GPG_key_expiry, expiry_date
    whose cell holds a text that is not empty, and a row with none is skipped
    with a log line, counted in [processed] and not in [errors].  The
    consolidated variant misses the second alias: line 40 reads
    gpg_key_expiry.  A row whose date stands under GPG_key_expiry, 14 days
    ahead, is skipped there as having no expiry date and nobody is mailed,
    while the same row with the date under GPG_Key_Expiry is evaluated and
    put into the bundle of its recipient. *)
Theorem C8_expiry_alias_missed :
  (forall c,
     match first_present single_aliases c with
     | Some v => SingleKey.expiry_date_str_of c = Some v
     | None => PyStr.truthy (SingleKey.expiry_date_str_of c) = false
     end) /\
  (forall ses today r (s : SingleKey.stats) t,
     first_present single_aliases (row_cells r) = None ->
     SingleKey.process_row ses today r s t =
       (Ok tt,
        SingleKey.Stats (SingleKey.processed s + 1) (SingleKey.notified s)
                        (SingleKey.errors s),
        t ++ [Print (LogProcessingRow r);
              Print (LogNoExpiry (SingleKey.key_name_of (row_cells r)))])) /\
  (let today := Calendar.Date 2024 1 1 in
   let names := Some ["GPG_private_key"; "GPG_key_expiry"; "PIC_email"] in
   let r := Row [("GPG_private_key", Some "K1");
                 ("GPG_key_expiry", Some "15-01-2024");
                 ("PIC_email", Some "r@x.com")] None in
   let r1 := Row [("GPG_private_key", Some "K1");
                  ("GPG_Key_Expiry", Some "15-01-2024");
                  ("PIC_email", Some "r@x.com")] None in
   first_present single_aliases (row_cells r) = Some "15-01-2024" /\
   Consolidated.strip_keys r = inr (row_cells r) /\
   Consolidated.expiry_date_str_of (row_cells r) = None /\
   Consolidated.lambda_handler (Manifest names [r] None) transport_up today =
     (Ok tt, Consolidated.Locals 0 [] 0 (row_cells r),
      [Print (LogColumns names); Print (LogCurrentDate today);
       Print (LogProcessingRow r); Print (LogNoExpiry "K1");
       Print (LogSummarySent 0 0)]) /\
   Consolidated.recipient_keys
     (snd (fst (Consolidated.lambda_handler (Manifest names [r1] None)
                  transport_up today))) =
     [("r@x.com", [Consolidated.KeyEntry "unknown" "K1" "15-01-2024" 14])]).
Proof.
  split; [exact single_expiry_resolution|]. split.
  - intros ses today r s t Hnone. apply single_absent_row.
    pose proof (single_expiry_resolution (row_cells r)) as H.
    rewrite Hnone in H. exact H.
  - repeat split.
Qed.

Lemma C8_expiry_alias_missed_witness :
  let r := Row [("GPG_Private_Key", Some "K1"); ("GPG_Key_Expiry", Some "");
                ("PIC_Email", Some "r@x.com")] None in
  first_present single_aliases (row_cells r) = None /\
  SingleKey.process_row transport_up
    (Calendar.DateTime (Calendar.Date 2024 1 1) 10 0 0 0) r
    (SingleKey.Stats 0 0 0) [] =
    (Ok tt, SingleKey.Stats 1 0 0,
     [Print (LogProcessingRow r); Print (LogNoExpiry "K1")]).
Proof.
  intros r. split; [reflexivity|].
  destruct C8_expiry_alias_missed as (_ & Hskip & _).
  apply (Hskip transport_up _ r (SingleKey.Stats 0 0 0) [] eq_refl).
Defined.

(** ** The job boundary *)

Section Boundary.
Import Calendar.

Lemma append_all_app d (l1 l2 : list (string * Consolidated.key_entry)) :
  Consolidated.append_all d (l1 ++ l2) =
  Consolidated.append_all (Consolidated.append_all d l1) l2.
Proof. unfold Consolidated.append_all. apply fold_left_app. Qed.

(** The loop over the rows of the consolidated variant never raises, sends
    nothing, and leaves in [recipient_keys] the contributions of the rows in
    manifest order. *)
Lemma consolidated_rows_loop today rows (s : Consolidated.locals) t :
  exists p' rv t',
    for_each rows (Consolidated.process_row today) s t =
      (Ok tt,
       Consolidated.Locals p'
         (Consolidated.append_all (Consolidated.recipient_keys s)
            (concat (map (Consolidated.contribution today) rows)))
         (Consolidated.notifications_sent s) rv,
       t') /\
    sends t' = sends t.
Proof.
  revert s t. induction rows as [|r rows IH]; intros s t; cbn [for_each map concat].
  - destruct s. eexists _, _, _. split; reflexivity.
  - unfold Eff.bind at 1.
    destruct (consolidated_process_row today r s t)
      as (p1 & rv1 & t1 & -> & _ & Hs1).
    match goal with
    | |- context [for_each rows _ ?s1 t1] =>
        destruct (IH s1 t1) as (p2 & rv2 & t2 & -> & Hs2)
    end.
    cbn [Consolidated.recipient_keys Consolidated.notifications_sent].
    rewrite append_all_app. eexists _, _, _. split; [reflexivity|]. congruence.
Qed.

(** Sending the mails never raises. *)
Lemma send_emails_returns ses (s : Consolidated.locals) t :
  exists s' t', Consolidated.send_emails ses s t = (Ok tt, s', t').
Proof.
  unfold Consolidated.send_emails, Eff.try_except.
  match goal with
  | |- context [match ?m s t with _ => _ end] =>
      destruct (m s t) as [[[[]|e] s1] t1]
  end; run_eff; eauto.
Qed.

Lemma last_print (t : list event) (l : log_line) :
  last (t ++ [Print l]) = Some (Print l).
Proof. apply last_snoc. Qed.

End Boundary.

(** C9: whatever the store, the reader and the transport do, neither
    handler raises: each returns.  When the run fails as a whole, the
    single-key handler returns status 500 with the text of the exception,
    the consolidated handler returns [None] as on every path, and the last
    line either of them logs is the diagnostic of that exception. *)
Theorem C9_no_exception_escapes (m : manifest) (ses : transport)
    (today : Calendar.datetime) :
  (exists resp s t,
     SingleKey.lambda_handler m ses today = (Ok resp, s, t) /\
     match top_level_failure m with
     | Some e =>
         resp = SingleKey.Response 500 ("Error: " +:+ exn_str e) /\
         last t = Some (Print (LogFatal e))
     | None => SingleKey.statusCode resp = 200
     end) /\
  (exists s t,
     Consolidated.lambda_handler m ses (Calendar.dt_date today) = (Ok tt, s, t) /\
     match top_level_failure m with
     | Some e => last t = Some (Print (LogFatal e)) /\ sends t = 0%nat
     | None => True
     end).
Proof.
  split.
  - destruct m as [e|e|fieldnames rows stop]; cbn [top_level_failure].
    + eexists _, _, _. split; [reflexivity|]. split; reflexivity.
    + eexists _, _, _. split; [reflexivity|]. split; reflexivity.
    + unfold SingleKey.lambda_handler, SingleKey.run, Eff.for_rows. run_eff.
      match goal with
      | |- context [for_each rows ?b ?s ?t] =>
          destruct (single_loop_invariant ses today rows s t)
            as (s' & t' & -> & _); [cbn; lia|]
      end.
      destruct stop as [e|]; eexists _, _, _; (split; [reflexivity|]).
      * split; [reflexivity|apply last_print].
      * reflexivity.
  - destruct m as [e|e|fieldnames rows stop]; cbn [top_level_failure].
    + eexists _, _. split; [reflexivity|]. split; reflexivity.
    + eexists _, _. split; [reflexivity|]. split; reflexivity.
    + unfold Consolidated.lambda_handler, Consolidated.run, Eff.for_rows.
      unfold Eff.try_except, Eff.bind at 1 2 3 4. 
      unfold Eff.print at 1 2, Eff.emit, Eff.modify at 1.
      unfold Eff.bind at 1.
      match goal with
      | |- context [for_each rows ?b ?s ?t] =>
          destruct (consolidated_rows_loop (Calendar.dt_date today) rows s t)
            as (p' & rv & t' & -> & Hs)
      end.
      destruct stop as [e|].
      * unfold Eff.raise, Eff.print, Eff.emit.
        eexists _, _. split; [reflexivity|].
        split; [apply last_print|]. rewrite sends_print, Hs. reflexivity.
      * unfold Eff.ret.
        match goal with
        | |- context [Consolidated.send_emails ses ?s ?t] =>
            destruct (send_emails_returns ses s t) as (s2 & t2 & ->)
        end.
        eauto.
Qed.

(** ** The recipient field *)

Section Recipients.

Lemma split_not_nil (sep : ascii) (s : string) : PyStr.split sep s <> [].
Proof.
  destruct s as [|c r]; cbn [PyStr.split]; [discriminate|].
  destruct (Ascii.eqb c sep); [discriminate|].
  destruct (PyStr.split sep r); discriminate.
Qed.

Lemma split_cons_other (sep c : ascii) (r : string) :
  Ascii.eqb c sep = false ->
  exists h t, PyStr.split sep r = h :: t /\
              PyStr.split sep (String c r) = String c h :: t.
Proof.
  intros Hc. cbn [PyStr.split]. rewrite Hc.
  destruct (PyStr.split sep r) as [|h t] eqn:E.
  - destruct (split_not_nil sep r E).
  - eauto.
Qed.

Lemma space_not_comma (c : ascii) :
  PyStr.isspace c = true -> Ascii.eqb c PyStr.comma = false.
Proof.
  intros H. destruct (Ascii.eqb_spec c PyStr.comma) as [->|]; [|reflexivity].
  discriminate H.
Qed.

(** [rstrip] of a text with one more character in front depends on that
    character and on [rstrip] of the text only. *)
Lemma rstrip_cons (c : ascii) (x : string) :
  PyStr.rstrip (String c x) =
    match PyStr.rstrip x with
    | EmptyString => if PyStr.isspace c then EmptyString else String c EmptyString
    | r' => String c r'
    end.
Proof. reflexivity. Qed.

Lemma lstrip_rstrip (x : string) :
  PyStr.rstrip (PyStr.lstrip x) = PyStr.lstrip (PyStr.rstrip x).
Proof.
  induction x as [|c r IH]; [reflexivity|].
  rewrite rstrip_cons. cbn [PyStr.lstrip].
  destruct (PyStr.isspace c) eqn:Hc.
  - rewrite IH. destruct (PyStr.rstrip r) as [|c' r']; [reflexivity|].
    cbn [PyStr.lstrip]. rewrite Hc. reflexivity.
  - rewrite rstrip_cons.
    destruct (PyStr.rstrip r) as [|c' r']; rewrite ?Hc;
      cbn [PyStr.lstrip]; rewrite Hc; reflexivity.
Qed.

Lemma strip_cons_space (c : ascii) (x : string) :
  PyStr.isspace c = true -> PyStr.strip (String c x) = PyStr.strip x.
Proof. intros Hc. unfold PyStr.strip. cbn [PyStr.lstrip]. rewrite Hc. reflexivity. Qed.

(** Trimming the field on the left changes no trimmed segment. *)
Lemma split_lstrip (s : string) :
  map PyStr.strip (PyStr.split PyStr.comma (PyStr.lstrip s)) =
  map PyStr.strip (PyStr.split PyStr.comma s).
Proof.
  induction s as [|c r IH]; [reflexivity|].
  cbn [PyStr.lstrip]. destruct (PyStr.isspace c) eqn:Hc; [|reflexivity].
  destruct (split_cons_other PyStr.comma c r (space_not_comma c Hc))
    as (h & t & Hr & ->).
  rewrite IH, Hr. cbn [map]. rewrite strip_cons_space by assumption. reflexivity.
Qed.

(** Trimming the field on the right changes no right-trimmed segment. *)
Lemma split_rstrip (s : string) :
  map PyStr.rstrip (PyStr.split PyStr.comma (PyStr.rstrip s)) =
  map PyStr.rstrip (PyStr.split PyStr.comma s).
Proof.
  induction s as [|c r IH]; [reflexivity|].
  destruct (Ascii.eqb c PyStr.comma) eqn:Hsep.
  - apply Ascii.eqb_eq in Hsep as ->.
    assert (PyStr.rstrip (String PyStr.comma r) =
            String PyStr.comma (PyStr.rstrip r)) as ->.
    { rewrite rstrip_cons. destruct (PyStr.rstrip r); reflexivity. }
    cbn [PyStr.split]. rewrite Ascii.eqb_refl. cbn [map]. rewrite IH. reflexivity.
  - destruct (split_cons_other PyStr.comma c r Hsep) as (h & t & Hr & ->).
    rewrite Hr in IH. cbn [map]. rewrite rstrip_cons.
    destruct (PyStr.rstrip r) as [|c' r'] eqn:E.
    + cbn in IH. injection IH as Hh Ht. rewrite rstrip_cons, <- Hh.
      destruct (PyStr.isspace c) eqn:Hc.
      * cbn. rewrite <- Ht. reflexivity.
      * cbn [PyStr.split]. rewrite Hsep. cbn [map]. rewrite rstrip_cons.
        cbn [PyStr.rstrip]. rewrite Hc, <- Ht. reflexivity.
    + destruct (split_cons_other PyStr.comma c (String c' r') Hsep)
        as (h' & t' & Hr' & ->).
      rewrite Hr' in IH. cbn [map] in IH. injection IH as Hh Ht.
      cbn [map]. rewrite !rstrip_cons, Hh, Ht. reflexivity.
Qed.

Lemma strip_as_lstrip_rstrip (l : list string) :
  map PyStr.strip l = map PyStr.lstrip (map PyStr.rstrip l).
Proof.
  rewrite map_map. apply map_ext. intros x. apply lstrip_rstrip.
Qed.

(** Trimming the whole field first changes no trimmed segment. *)
Lemma split_strip (s : string) :
  map PyStr.strip (PyStr.split PyStr.comma (PyStr.strip s)) =
  map PyStr.strip (PyStr.split PyStr.comma s).
Proof.
  unfold PyStr.strip at 2.
  rewrite strip_as_lstrip_rstrip, split_rstrip, <- strip_as_lstrip_rstrip.
  apply split_lstrip.
Qed.

(** The consolidated variant resolves every recipient field as the
    specification says. *)
Lemma consolidated_recipients_spec (field : string) :
  Consolidated.resolved_recipients field = recipients_spec field.
Proof.
  unfold Consolidated.resolved_recipients, recipients_spec.
  rewrite <- (split_strip field).
  destruct (PyStr.strip field) as [|c r]; reflexivity.
Qed.

End Recipients.

(** C3: the consolidated variant resolves every recipient field as the
    specification says, and resolves the field of the example to the two
    addresses; the single-key variant trims the segments and keeps the
    empty one, so that the transport is handed an empty address. *)
Theorem C3_recipient_field :
  (forall field,
     Consolidated.resolved_recipients field = recipients_spec field) /\
  recipients_spec "a@x.com, b@x.com ," = ["a@x.com"; "b@x.com"] /\
  SingleKey.recipients_of "a@x.com, b@x.com ," = ["a@x.com"; "b@x.com"; ""] /\
  (let r := mk_row "K1" "03-01-2024" "a@x.com, b@x.com ," in
   let today := Calendar.DateTime (Calendar.Date 2024 1 1) 10 0 0 0 in
   omap (fun ev => match ev with
                   | SendEmail q => Some (ToAddresses q)
                   | _ => None
                   end)
        (snd (SingleKey.lambda_handler (Manifest header [r] None)
                transport_up today))
   = [["a@x.com"; "b@x.com"; ""]]).
Proof.
  split; [exact consolidated_recipients_spec|].
  repeat split.
Qed.

(** ** Bundles *)

Section Bundles.
Import Consolidated.

Lemma entries_for_app k l1 l2 :
  entries_for k (l1 ++ l2) = entries_for k l1 ++ entries_for k l2.
Proof. unfold entries_for. rewrite filter_app, map_app. reflexivity. Qed.

Lemma lookup_setdefault_append {V} (k k' : string) (x : V) d :
  PyDict.lookup k (PyDict.setdefault_append k' x d) =
    if String.eqb k' k then
      Some (match PyDict.lookup k d with Some l0 => l0 ++ [x] | None => [x] end)
    else PyDict.lookup k d.
Proof.
  induction d as [|[k0 l0] d IH]; cbn [PyDict.setdefault_append PyDict.lookup].
  - destruct (String.eqb k' k) eqn:E; reflexivity.
  - destruct (String.eqb k0 k') eqn:E0; cbn [PyDict.lookup].
    + apply String.eqb_eq in E0 as ->.
      destruct (String.eqb k' k); reflexivity.
    + destruct (String.eqb k0 k) eqn:E1.
      * apply String.eqb_eq in E1 as ->. rewrite String.eqb_sym, E0. reflexivity.
      * exact IH.
Qed.

(** The bundle of a recipient after a list of appends: what it held before,
    followed by the entries appended for it, in the order of the appends. *)
Lemma lookup_append_all k l d :
  PyDict.lookup k (append_all d l) =
    match PyDict.lookup k d with
    | Some l0 => Some (l0 ++ entries_for k l)
    | None => match entries_for k l with [] => None | es => Some es end
    end.
Proof.
  revert d. induction l as [|[k' x] l IH]; intros d.
  - cbn. destruct (PyDict.lookup k d); [rewrite app_nil_r|]; reflexivity.
  - change (append_all d ((k', x) :: l))
      with (append_all (PyDict.setdefault_append k' x d) l).
    rewrite IH, lookup_setdefault_append. unfold entries_for.
    rewrite filter_cons. cbn [fst].
    destruct (String.eqb_spec k' k) as [->|Hne].
    + rewrite decide_True by reflexivity. cbn [map snd].
      destruct (PyDict.lookup k d) as [l0|];
        rewrite <- ?app_assoc; reflexivity.
    + rewrite decide_False by assumption. reflexivity.
Qed.

Lemma keys_setdefault_append {V} (k : string) (x : V) d :
  map fst (PyDict.setdefault_append k x d) =
    match PyDict.lookup k d with
    | Some _ => map fst d
    | None => map fst d ++ [k]
    end.
Proof.
  induction d as [|[k0 l0] d IH]; cbn [PyDict.setdefault_append PyDict.lookup];
    [reflexivity|].
  destruct (String.eqb k0 k); [reflexivity|].
  cbn [map fst]. rewrite IH. destruct (PyDict.lookup k d); reflexivity.
Qed.

Lemma lookup_None_not_key {V} (k : string) (d : PyDict.pydict V) :
  PyDict.lookup k d = None -> ~ In k (map fst d).
Proof.
  induction d as [|[k0 v0] d IH]; cbn [PyDict.lookup map fst]; [intros _ []|].
  destruct (String.eqb_spec k0 k) as [->|Hne]; [discriminate|].
  intros H [Hk|Hk]; [congruence|exact (IH H Hk)].
Qed.

Lemma keys_append_all_NoDup l d :
  NoDup (map fst d) -> NoDup (map fst (append_all d l)).
Proof.
  revert d. induction l as [|[k x] l IH]; intros d Hd; [exact Hd|].
  change (append_all d ((k, x) :: l))
    with (append_all (PyDict.setdefault_append k x d) l).
  apply IH. rewrite keys_setdefault_append.
  destruct (PyDict.lookup k d) eqn:E; [exact Hd|].
  apply NoDup_app. split; [exact Hd|]. split.
  - intros y Hy Hk. apply list_elem_of_In in Hy, Hk.
    destruct Hk as [<-|[]]. exact (lookup_None_not_key _ _ E Hy).
  - apply NoDup_singleton.
Qed.

Lemma lookup_of_In {V} (k : string) (v : V) (d : PyDict.pydict V) :
  NoDup (map fst d) -> In (k, v) d -> PyDict.lookup k d = Some v.
Proof.
  induction d as [|[k0 v0] d IH]; cbn [PyDict.lookup map fst]; [intros _ []|].
  intros Hnd [Heq|Hin].
  - injection Heq as -> ->. rewrite String.eqb_refl. reflexivity.
  - apply NoDup_cons in Hnd as [Hk0 Hnd].
    destruct (String.eqb_spec k0 k) as [->|Hne].
    + exfalso. apply Hk0. apply list_elem_of_In.
      change k with (fst (k, v)). apply in_map, Hin.
    + apply IH; assumption.
Qed.

Lemma in_snoc {A} (x y : A) (l : list A) :
  In x (l ++ [y]) <-> In x l \/ x = y.
Proof. rewrite in_app_iff. cbn. intuition. Qed.

(** The retry loop assigns to nothing, never raises, and calls the
    transport with its request only; a loop with a turn to make calls it. *)
Lemma consolidated_retry_loop_trace {S} ses req recipient attempts
    (s : S) (t : list event) :
  exists n added,
    retry_loop ses req recipient attempts s t = (Ok n, s, t ++ added) /\
    (forall q, In (SendEmail q) added -> q = req) /\
    (attempts <> [] -> In (SendEmail req) added).
Proof.
  revert t. induction attempts as [|attempt rest IH]; intros t; cbn [retry_loop].
  - run_eff. eexists _, [_]. split; [reflexivity|]. split.
    + intros q [Hq|[]]. discriminate.
    + intros H. destruct H. reflexivity.
  - run_eff. destruct (ses (sends t) req) as [e|response].
    + match goal with
      | |- context [retry_loop ses req recipient rest s ?t1] =>
          destruct (IH t1) as (n & added & -> & Hall & _)
      end.
      exists n, ([SendEmail req;
                  Print (LogAttemptFailed (attempt + 1) recipient (Some e))]
                 ++ added).
      split; [rewrite <- !app_assoc; reflexivity|]. split.
      * intros q [Hq|[Hq|Hq]]; [congruence|discriminate|auto].
      * intros _. left. reflexivity.
    + exists 1, [SendEmail req; Print (LogSendOk recipient [recipient])].
      split; [rewrite <- !app_assoc; reflexivity|]. split.
      * intros q [Hq|[Hq|[]]]; [congruence|discriminate].
      * intros _. left. reflexivity.
Qed.

(** One turn of the loop over the recipients. *)
Lemma notify_trace ses (k : string) (keys : list key_entry) (s : locals) t :
  exists n added,
    notify ses (k, keys) s t =
      (Ok tt,
       Locals (processed s) (recipient_keys s) (notifications_sent s + n)
              (row_var s),
       t ++ added) /\
    (forall q, In (SendEmail q) added -> q = request_for k keys) /\
    In (SendEmail (request_for k keys)) added.
Proof.
  unfold notify, send_consolidated_email. cbn [fst snd].
  unfold Eff.bind at 1. unfold Eff.print at 1, Eff.emit.
  unfold Eff.try_except, Eff.bind.
  match goal with
  | |- context [retry_loop ses ?req k ?att s ?t1] =>
      destruct (consolidated_retry_loop_trace ses req k att s t1)
        as (n & added & -> & Hall & Hsome)
  end.
  unfold Eff.modify.
  exists n, (Print (LogSending k (Z.of_nat (length keys))) :: added).
  split; [rewrite <- app_assoc; reflexivity|]. split.
  - intros q [Hq|Hq]; [discriminate|]. apply Hall, Hq.
  - right. apply Hsome. discriminate.
Qed.

(** The loop over the recipients calls the transport with the requests of
    the items of [recipient_keys], and with each of them. *)
Lemma notify_all_trace ses (items : list (string * list key_entry))
    (s : locals) t :
  exists ns added,
    for_each items (notify ses) s t =
      (Ok tt, Locals (processed s) (recipient_keys s) ns (row_var s),
       t ++ added) /\
    (forall q, In (SendEmail q) added <->
               exists k keys, In (k, keys) items /\ q = request_for k keys).
Proof.
  revert s t. induction items as [|[k keys] items IH]; intros s t;
    cbn [for_each].
  - exists (notifications_sent s), []. destruct s. rewrite app_nil_r.
    split; [reflexivity|]. intros q. split; [intros []|].
    intros (k & keys & [] & _).
  - unfold Eff.bind at 1.
    destruct (notify_trace ses k keys s t) as (n & added1 & -> & Hall & Hsome).
    match goal with
    | |- context [for_each items _ ?s1 ?t1] =>
        destruct (IH s1 t1) as (ns & added2 & -> & Hiff)
    end.
    exists ns, (added1 ++ added2).
    split; [rewrite <- app_assoc; reflexivity|].
    intros q. rewrite in_app_iff, Hiff. split.
    + intros [Hq|(k' & keys' & Hin & ->)].
      * exists k, keys. split; [left; reflexivity|auto].
      * exists k', keys'. split; [right; exact Hin|reflexivity].
    + intros (k' & keys' & [Heq|Hin] & ->).
      * injection Heq as <- <-. left. exact Hsome.
      * right. eauto.
Qed.

Lemma no_sends (t : list event) (q : ses_request) :
  sends t = 0%nat -> ~ In (SendEmail q) t.
Proof.
  intros H Hin. apply in_split in Hin as (l1 & l2 & ->).
  change (SendEmail q :: l2) with ([SendEmail q] ++ l2) in H.
  rewrite app_assoc, sends_app, sends_send in H. lia.
Qed.

(** A run of the consolidated handler whose reader stops normally: the
    bundles are the contributions of the rows in manifest order, and the
    transport is called with the request of every bundle and with no
    other. *)
Lemma consolidated_run_mails today ses fieldnames rows :
  exists s t,
    lambda_handler (Manifest fieldnames rows None) ses today = (Ok tt, s, t) /\
    recipient_keys s = append_all [] (concat (map (contribution today) rows)) /\
    (forall q, In (SendEmail q) t <->
               exists k keys, In (k, keys) (recipient_keys s) /\
                              q = request_for k keys).
Proof.
  unfold lambda_handler, run, Eff.for_rows.
  unfold Eff.try_except at 1, Eff.bind at 1 2 3 4.
  unfold Eff.print at 1 2, Eff.emit, Eff.modify at 1.
  unfold Eff.bind at 1.
  match goal with
  | |- context [for_each rows ?b ?s0 ?t0] =>
      destruct (consolidated_rows_loop today rows s0 t0)
        as (p' & rv & t1 & -> & Hs)
  end.
  change (sends _) with 0%nat in Hs at 2.
  cbn [recipient_keys notifications_sent] in *.
  unfold Eff.ret, send_emails.
  unfold Eff.try_except, Eff.bind at 1 2 3. unfold Eff.modify at 1, Eff.get at 1.
  cbn [recipient_keys processed row_var].
  match goal with
  | |- context [for_each ?items (notify ses) ?s1 t1] =>
      destruct (notify_all_trace ses items s1 t1) as (ns & added & -> & Hiff)
  end.
  run_eff. cbn [recipient_keys processed row_var notifications_sent].
  eexists _, _. split; [reflexivity|]. cbn [recipient_keys].
  split; [reflexivity|].
  intros q. rewrite <- Hiff, in_snoc, in_app_iff. split.
  - intros [[Hq|Hq]|Hq]; [destruct (no_sends _ _ Hs Hq)|exact Hq|discriminate].
  - auto.
Qed.

End Bundles.

(** C4, as amended: when exactly two rows of the manifest add an entry to
    the bundle of a recipient, each of them once, the bundle holds the two
    entries in manifest order; every mail the run sends to that recipient is
    the rendering of this bundle, whose table body is the row numbered 1 of
    the first entry followed by the row numbered 2 of the second, and whose
    plain text lists the same two lines between its header and its footer. *)
Theorem C4_two_records_one_recipient today ses fieldnames
    (pre mid post : list row) (r1 r2 : row) (rcp : string)
    (e1 e2 : Consolidated.key_entry) :
  entries_for rcp (Consolidated.contribution today r1) = [e1] ->
  entries_for rcp (Consolidated.contribution today r2) = [e2] ->
  (forall r, In r (pre ++ mid ++ post) ->
             entries_for rcp (Consolidated.contribution today r) = []) ->
  exists s t,
    Consolidated.lambda_handler
      (Manifest fieldnames (pre ++ r1 :: mid ++ r2 :: post) None) ses today =
      (Ok tt, s, t) /\
    PyDict.lookup rcp (Consolidated.recipient_keys s) = Some [e1; e2] /\
    In (SendEmail (request_for rcp [e1; e2])) t /\
    (forall q, In (SendEmail q) t -> ToAddresses q = [rcp] ->
               q = request_for rcp [e1; e2]) /\
    Consolidated.table_rows_html [e1; e2] =
      Consolidated.table_row_html 1 e1 +:+ Consolidated.table_row_html 2 e2 /\
    Consolidated.text_body [e1; e2] =
      ((Consolidated.text_header +:+ Consolidated.text_line 1 e1) +:+
       Consolidated.text_line 2 e2) +:+ Consolidated.text_footer.
Proof.
  intros H1 H2 Hrest.
  destruct (consolidated_run_mails today ses fieldnames
              (pre ++ r1 :: mid ++ r2 :: post)) as (s & t & Hrun & Hkeys & Hiff).
  assert (PyDict.lookup rcp (Consolidated.recipient_keys s) = Some [e1; e2])
    as Hlookup.
  { rewrite Hkeys, lookup_append_all. cbn [PyDict.lookup].
    assert (forall l, (forall r, In r l ->
                entries_for rcp (Consolidated.contribution today r) = []) ->
              entries_for rcp (concat (map (Consolidated.contribution today) l))
              = []) as Hnil.
    { induction l as [|r l IH]; intros Hl; [reflexivity|].
      cbn [map concat]. rewrite entries_for_app, Hl, IH; [reflexivity| |].
      - intros r' Hr'. apply Hl. right. exact Hr'.
      - left. reflexivity. }
    rewrite map_app, concat_app, entries_for_app. cbn [map concat].
    rewrite entries_for_app, map_app, concat_app, entries_for_app.
    cbn [map concat]. rewrite entries_for_app, H1, H2.
    rewrite !Hnil; [reflexivity| | |];
      intros r Hr; apply Hrest; rewrite !in_app_iff; auto. }
  assert (NoDup (map fst (Consolidated.recipient_keys s))) as Hnd.
  { rewrite Hkeys. apply keys_append_all_NoDup. constructor. }
  exists s, t. split; [exact Hrun|]. split; [exact Hlookup|]. split; [|split].
  - apply Hiff. exists rcp, [e1; e2]. split; [|reflexivity].
    clear - Hlookup. induction (Consolidated.recipient_keys s) as [|[k v] d IH];
      [discriminate|].
    cbn [PyDict.lookup] in Hlookup.
    destruct (String.eqb_spec k rcp) as [->|Hne].
    + injection Hlookup as ->. left. reflexivity.
    + right. apply IH, Hlookup.
  - intros q Hq Hto. apply Hiff in Hq as (k & keys & Hin & ->).
    cbn in Hto. injection Hto as ->.
    apply (lookup_of_In _ _ _ Hnd) in Hin. congruence.
  - split; reflexivity.
Qed.

Lemma C4_two_records_one_recipient_witness :
  let today := Calendar.Date 2024 1 1 in
  let r1 := mk_feed_row "F1" "K1" "06-01-2024" "r@x.com" in
  let r2 := mk_feed_row "F2" "K2" "10-01-2024" "s@x.com, r@x.com" in
  let e1 := Consolidated.KeyEntry "F1" "K1" "06-01-2024" 5 in
  let e2 := Consolidated.KeyEntry "F2" "K2" "10-01-2024" 9 in
  entries_for "r@x.com" (Consolidated.contribution today r1) = [e1] /\
  entries_for "r@x.com" (Consolidated.contribution today r2) = [e2] /\
  exists s t,
    Consolidated.lambda_handler (Manifest None [r1; r2] None) transport_up today
      = (Ok tt, s, t) /\
    PyDict.lookup "r@x.com" (Consolidated.recipient_keys s) = Some [e1; e2] /\
    In (SendEmail (request_for "r@x.com" [e1; e2])) t.
Proof.
  intros today r1 r2 e1 e2.
  assert (entries_for "r@x.com" (Consolidated.contribution today r1) = [e1])
    as H1 by reflexivity.
  assert (entries_for "r@x.com" (Consolidated.contribution today r2) = [e2])
    as H2 by reflexivity.
  split; [exact H1|]. split; [exact H2|].
  destruct (C4_two_records_one_recipient today transport_up None [] [] []
              r1 r2 "r@x.com" e1 e2 H1 H2 (fun r (H : In r []) => match H with end))
    as (s & t & Hrun & Hlookup & Hsent & _).
  exists s, t. auto.
Defined.

(** Where the claim fails: a record that names the recipient twice is
    appended twice.  With two notifiable records for one recipient, the
    first naming it twice, the bundle holds three entries and the table body
    has rows numbered 1, 2 and 3. *)
Lemma C4_counterexample :
  let today := Calendar.Date 2024 1 1 in
  let r1 := mk_feed_row "F1" "K1" "06-01-2024" "r@x.com, r@x.com" in
  let r2 := mk_feed_row "F2" "K2" "10-01-2024" "r@x.com" in
  let e1 := Consolidated.KeyEntry "F1" "K1" "06-01-2024" 5 in
  let e2 := Consolidated.KeyEntry "F2" "K2" "10-01-2024" 9 in
  let run := Consolidated.lambda_handler (Manifest None [r1; r2] None)
               transport_up today in
  Consolidated.recipient_keys (snd (fst run)) = [("r@x.com", [e1; e1; e2])] /\
  omap (fun ev => match ev with SendEmail q => Some q | _ => None end) (snd run)
    = [request_for "r@x.com" [e1; e1; e2]] /\
  Consolidated.table_rows_html [e1; e1; e2] =
    Consolidated.table_row_html 1 e1 +:+ Consolidated.table_row_html 2 e1 +:+
    Consolidated.table_row_html 3 e2.
Proof. repeat split; vm_compute; reflexivity. Qed.

(** ** Runs of the single-key handler on one row *)

(** At ten in the morning of 1 January 2024 a key that expires on
    15 January, 14 calendar days later, is logged with 13 days until expiry
    and no mail is sent. *)
Example single_run_fourteen_days_morning :
  let r := mk_row "K1" "15-01-2024" "r@x.com" in
  SingleKey.lambda_handler (Manifest header [r] None) transport_up
    (Calendar.DateTime (Calendar.Date 2024 1 1) 10 0 0 0) =
  (Ok (SingleKey.Response 200 "Processed 1 keys, sent 0 notifications"),
   SingleKey.Stats 1 0 0,
   [Print (LogColumns header);
    Print (LogCurrentDate (Calendar.Date 2024 1 1));
    Print (LogProcessingRow r);
    Print (LogKey "K1" "15-01-2024" 13);
    Print (LogSummary 1 0 0)]).
Proof. reflexivity. Qed.

(** The same row at a clock reading that is exactly midnight. *)
Example single_run_fourteen_days_midnight :
  let r := mk_row "K1" "15-01-2024" "r@x.com" in
  let run := SingleKey.lambda_handler (Manifest header [r] None) transport_up
               (Calendar.midnight (Calendar.Date 2024 1 1)) in
  snd (fst run) = SingleKey.Stats 1 1 0 /\
  omap (fun ev => match ev with
                  | SendEmail q => Some (ToAddresses q, Subject q)
                  | _ => None
                  end) (snd run)
  = [(["r@x.com"], "Key Expiration Alert: K1 - Action Required")].
Proof. split; reflexivity. Qed.

Example strptime_ok :
  Strptime.strptime "15-01-2024" = inr (Calendar.midnight (Calendar.Date 2024 1 15)).
Proof. reflexivity. Qed.

Example strptime_iso_refused :
  Strptime.strptime "2024-01-01" = inl (ValueError "time data does not match format").
Proof. reflexivity. Qed.

(** * Further properties of the two files *)

(** ** The retry loops on any transport *)

Section Retries.
Variable ses : transport.

Ltac call_index :=
  repeat (rewrite sends_sleep || rewrite sends_print || rewrite sends_send).

Lemma each_event (P : event -> Prop) (l : list event) :
  Forall P l -> forall ev, In ev l -> P ev.
Proof.
  intros HF ev Hin. rewrite Forall_forall in HF.
  apply HF, list_elem_of_In, Hin.
Qed.

Ltac each_of P :=
  apply (each_event P);
  repeat (apply List.Forall_cons;
          [let H := fresh in
           cbn; intros H; first [reflexivity | discriminate H]|]);
  apply List.Forall_nil.

Ltac each_send :=
  match goal with
  | |- forall ev, _ -> is_send ev = true -> ev = ?x =>
      each_of (fun ev => is_send ev = true -> ev = x)
  end.

Ltac each_sleep :=
  match goal with
  | |- forall ev, _ -> is_sleep ev = true -> ev = ?x =>
      each_of (fun ev => is_sleep ev = true -> ev = x)
  end.

(** X1: [send_formatted_email] calls the transport with its one request, at
    least once and at most three times; every call before the last one
    failed; it pauses one second after each failed call but the third; it
    returns the response of the first call that succeeds, and raises the
    exception of the third call when all three fail. *)
Theorem X1_single_delivery_attempts {St} sender recipients key_name
    expiry_date days_remaining (s : St) (t : list event) :
  let req := SesRequest sender recipients (SingleKey.subject key_name)
               (SingleKey.text_body key_name expiry_date days_remaining)
               (SingleKey.html_body key_name expiry_date days_remaining) in
  exists r added,
    SingleKey.send_formatted_email ses sender recipients key_name expiry_date
      days_remaining s t = (r, s, t ++ added) /\
    (1 <= sends added <= 3)%nat /\
    sleeps added = (sends added - 1)%nat /\
    (forall ev, In ev added -> is_send ev = true -> ev = SendEmail req) /\
    (forall ev, In ev added -> is_sleep ev = true -> ev = Sleep 1) /\
    (forall i, (i < sends added - 1)%nat ->
               exists e, ses (sends t + i)%nat req = inl e) /\
    match r with
    | Ok (Some response) =>
        ses (sends t + (sends added - 1))%nat req = inr response
    | Ok None => False
    | Raise e => sends added = 3%nat /\ ses (sends t + 2)%nat req = inl e
    end.
Proof.
  intros req. unfold SingleKey.send_formatted_email. fold req.
  change (Py.range SingleKey.max_retries) with [0; 1; 2].
  cbn [SingleKey.retry_loop]. run_eff.
  change (0 <? SingleKey.max_retries - 1) with true.
  change (1 <? SingleKey.max_retries - 1) with true.
  change (2 <? SingleKey.max_retries - 1) with false.
  cbv beta iota.
  destruct (ses (sends t) req) as [e0|r0] eqn:E0.
  2: { eexists _, [_; _]. rewrite <- !app_assoc.
       split; [reflexivity|]. change (sends [_; _]) with 1%nat.
       split; [lia|]. split; [reflexivity|].
       split; [each_send|]. split; [each_sleep|].
       split; [intros i Hi; lia|].
       replace (sends t + (1 - 1))%nat with (sends t) by lia. first [assumption | reflexivity]. }
  cbv beta iota. call_index.
  replace (S (sends t)) with (sends t + 1)%nat by lia.
  destruct (ses (sends t + 1)%nat req) as [e1|r1] eqn:E1.
  2: { eexists _, [_; _; _; _; _]. rewrite <- !app_assoc.
       split; [reflexivity|]. change (sends [_; _; _; _; _]) with 2%nat.
       split; [lia|]. split; [reflexivity|].
       split; [each_send|]. split; [each_sleep|].
       split.
       - intros i Hi. assert (i = 0%nat) as -> by lia.
         rewrite Nat.add_0_r. eauto.
       - first [assumption | reflexivity]. }
  cbv beta iota. call_index.
  replace (S (S (sends t))) with (sends t + 2)%nat by lia.
  destruct (ses (sends t + 2)%nat req) as [e2|r2] eqn:E2.
  - eexists _, [_; _; _; _; _; _; _; _]. rewrite <- !app_assoc.
    split; [reflexivity|]. change (sends [_; _; _; _; _; _; _; _]) with 3%nat.
    split; [lia|]. split; [reflexivity|].
    split; [each_send|]. split; [each_sleep|].
    split; [|split; [reflexivity|first [assumption | reflexivity]]].
    intros i Hi. assert (i = 0 \/ i = 1)%nat as [-> | ->] by lia;
      rewrite ?Nat.add_0_r; eauto.
  - eexists _, [_; _; _; _; _; _; _; _]. rewrite <- !app_assoc.
    split; [reflexivity|]. change (sends [_; _; _; _; _; _; _; _]) with 3%nat.
    split; [lia|]. split; [reflexivity|].
    split; [each_send|]. split; [each_sleep|].
    split; [|first [assumption | reflexivity]].
    intros i Hi. assert (i = 0 \/ i = 1)%nat as [-> | ->] by lia;
      rewrite ?Nat.add_0_r; eauto.
Qed.

(** X2: [send_consolidated_email] never raises and never pauses.  It calls
    the transport with its one request, at least once and at most three
    times, every call before the last one having failed; it returns 1 when
    its last call succeeded and 0 when all three calls failed. *)
Theorem X2_consolidated_delivery_attempts {St} recipient key_data sender
    (s : St) (t : list event) :
  let req := SesRequest sender [recipient] Consolidated.subject
               (Consolidated.text_body key_data)
               (Consolidated.html_body key_data) in
  exists n added,
    Consolidated.send_consolidated_email ses recipient key_data sender s t =
      (Ok n, s, t ++ added) /\
    (1 <= sends added <= 3)%nat /\
    sleeps added = 0%nat /\
    (forall ev, In ev added -> is_send ev = true -> ev = SendEmail req) /\
    (forall i, (i < sends added - 1)%nat ->
               exists e, ses (sends t + i)%nat req = inl e) /\
    ((n = 1 /\
      exists response,
        ses (sends t + (sends added - 1))%nat req = inr response) \/
     (n = 0 /\ sends added = 3%nat /\
      exists e, ses (sends t + 2)%nat req = inl e)).
Proof.
  intros req. unfold Consolidated.send_consolidated_email. fold req.
  change (Py.range Consolidated.max_retries) with [0; 1; 2].
  cbn [Consolidated.retry_loop]. run_eff.
  cbv beta iota.
  destruct (ses (sends t) req) as [e0|r0] eqn:E0.
  2: { eexists _, [_; _]. rewrite <- !app_assoc.
       split; [reflexivity|]. change (sends [_; _]) with 1%nat.
       split; [lia|]. split; [reflexivity|]. split; [each_send|].
       split; [intros i Hi; lia|]. left. split; [reflexivity|].
       replace (sends t + (1 - 1))%nat with (sends t) by lia. eauto. }
  cbv beta iota. call_index.
  replace (S (sends t)) with (sends t + 1)%nat by lia.
  destruct (ses (sends t + 1)%nat req) as [e1|r1] eqn:E1.
  2: { eexists _, [_; _; _; _]. rewrite <- !app_assoc.
       split; [reflexivity|]. change (sends [_; _; _; _]) with 2%nat.
       split; [lia|]. split; [reflexivity|]. split; [each_send|].
       split.
       - intros i Hi. assert (i = 0%nat) as -> by lia.
         rewrite Nat.add_0_r. eauto.
       - left. split; [reflexivity|]. eauto. }
  cbv beta iota. call_index.
  replace (S (S (sends t))) with (sends t + 2)%nat by lia.
  destruct (ses (sends t + 2)%nat req) as [e2|r2] eqn:E2.
  - eexists _, [_; _; _; _; _; _; _]. rewrite <- !app_assoc.
    split; [reflexivity|]. change (sends [_; _; _; _; _; _; _]) with 3%nat.
    split; [lia|]. split; [reflexivity|]. split; [each_send|].
    split.
    + intros i Hi. assert (i = 0 \/ i = 1)%nat as [-> | ->] by lia;
        rewrite ?Nat.add_0_r; eauto.
    + right. split; [reflexivity|]. split; [reflexivity|]. eauto.
  - eexists _, [_; _; _; _; _; _]. rewrite <- !app_assoc.
    split; [reflexivity|]. change (sends [_; _; _; _; _; _]) with 3%nat.
    split; [lia|]. split; [reflexivity|]. split; [each_send|].
    split.
    + intros i Hi. assert (i = 0 \/ i = 1)%nat as [-> | ->] by lia;
        rewrite ?Nat.add_0_r; eauto.
    + left. split; [reflexivity|]. eauto.
Qed.

End Retries.

(** ** Which expiry dates trigger a mail *)

Section LeadDays.
Import Calendar.

(** X3: a key whose expiry date is today's date or earlier is never
    notifiable in the single-key variant, at any time of day; a key whose
    expiry date is before today's date is never notifiable in the
    consolidated variant. *)
Theorem X3_expired_not_notifiable (s : string) (expiry today : datetime) :
  valid_time today = true ->
  Strptime.strptime s = inr expiry ->
  (toordinal (dt_date expiry) <= toordinal (dt_date today) ->
   SingleKey.notifiable (SingleKey.days_until_expiry expiry today) = false) /\
  (toordinal (dt_date expiry) < toordinal (dt_date today) ->
   Consolidated.notifiable
     (Consolidated.days_left (dt_date expiry) (dt_date today)) = false).
Proof.
  intros Hv Hp. split; intros Hord.
  - rewrite (strptime_midnight _ _ Hp), single_days_until_expiry by assumption.
    unfold SingleKey.notifiable.
    destruct (_ && _);
      repeat match goal with
             | |- context [?a =? ?b] => destruct (Z.eqb_spec a b)
             | |- context [?a <=? ?b] => destruct (Z.leb_spec a b)
             end; cbn; try reflexivity; lia.
  - rewrite consolidated_days_left. unfold Consolidated.notifiable.
    destruct (Z.leb_spec 0 (toordinal (dt_date expiry) - toordinal (dt_date today)));
      [lia|reflexivity].
Qed.

Lemma X3_expired_not_notifiable_witness :
  let today := DateTime (Date 2024 3 1) 0 0 0 0 in
  let expiry := midnight (Date 2024 2 29) in
  valid_time today = true /\
  Strptime.strptime "29-02-2024" = inr expiry /\
  toordinal (dt_date expiry) < toordinal (dt_date today) /\
  SingleKey.notifiable (SingleKey.days_until_expiry expiry today) = false /\
  Consolidated.notifiable
    (Consolidated.days_left (dt_date expiry) (dt_date today)) = false.
Proof.
  intros today expiry.
  assert (toordinal (dt_date expiry) < toordinal (dt_date today)) as Hlt
    by reflexivity.
  split; [reflexivity|]. split; [reflexivity|]. split; [exact Hlt|].
  destruct (X3_expired_not_notifiable "29-02-2024" expiry today eq_refl eq_refl)
    as [Hsingle Hcons].
  split; [apply Hsingle; lia|apply Hcons, Hlt].
Defined.

(** X4: the dates for which a mail is due, as a number of calendar days
    [lead] between today's date and the expiry date.  The consolidated
    variant notifies exactly when [0 <= lead <= 30].  The single-key variant
    notifies exactly when [lead] is 1, 2, 3 or 14 if the clock reading is a
    midnight, and exactly when [lead] is 2, 3, 4 or 15 at any other time of
    day. *)
Theorem X4_lead_days (s : string) (expiry today : datetime) :
  valid_time today = true ->
  Strptime.strptime s = inr expiry ->
  let lead := toordinal (dt_date expiry) - toordinal (dt_date today) in
  (Consolidated.notifiable
     (Consolidated.days_left (dt_date expiry) (dt_date today)) = true
   <-> 0 <= lead <= 30) /\
  (SingleKey.notifiable (SingleKey.days_until_expiry expiry today) = true
   <-> if (seconds_of_day today =? 0) && (microsecond today =? 0)
       then 1 <= lead <= 3 \/ lead = 14
       else 2 <= lead <= 4 \/ lead = 15).
Proof.
  intros Hv Hp lead. split.
  - rewrite consolidated_days_left. fold lead. unfold Consolidated.notifiable.
    rewrite andb_true_iff, !Z.leb_le. reflexivity.
  - rewrite (strptime_midnight _ _ Hp), single_days_until_expiry by assumption.
    fold lead. unfold SingleKey.notifiable.
    rewrite orb_true_iff, andb_true_iff, Z.eqb_eq, !Z.leb_le.
    destruct (_ && _); lia.
Qed.

Lemma X4_lead_days_witness :
  let today := DateTime (Date 2024 1 1) 10 0 0 0 in
  let expiry := midnight (Date 2024 1 16) in
  valid_time today = true /\
  Strptime.strptime "16-01-2024" = inr expiry /\
  SingleKey.notifiable (SingleKey.days_until_expiry expiry today) = true.
Proof.
  intros today expiry. split; [reflexivity|]. split; [reflexivity|].
  destruct (X4_lead_days "16-01-2024" expiry today eq_refl eq_refl) as [_ Hs].
  apply Hs. right. reflexivity.
Defined.

End LeadDays.

(** ** How many calls a run of the single-key variant makes *)

Section SingleBudget.
Import SingleKey.
Variable ses : transport.

Lemma single_retry_loop_calls {St} req key_name recipients attempts
    (s : St) (t : list event) :
  exists r t',
    retry_loop ses req key_name recipients attempts s t = (r, s, t') /\
    (sends t <= sends t' <= sends t + length attempts)%nat /\
    (attempts <> [] -> (sends t < sends t')%nat).
Proof.
  revert t. induction attempts as [|attempt rest IH]; intros t; cbn [retry_loop].
  - run_eff. eexists _, _. split; [reflexivity|]. cbn [length].
    split; [lia|]. intros H. destruct H. reflexivity.
  - run_eff. destruct (ses (sends t) req) as [e|response].
    + destruct (attempt <? max_retries - 1).
      * match goal with
        | |- context [retry_loop ses req key_name recipients rest s ?t1] =>
            destruct (IH t1) as (r & t' & -> & Hb & _);
            assert (sends t1 = Datatypes.S (sends t)) as Ht1
              by (rewrite sends_sleep, sends_print, sends_send; reflexivity)
        end.
        eexists _, _. split; [reflexivity|]. cbn [length]. lia.
      * eexists _, _. split; [reflexivity|].
        rewrite sends_print, sends_send. cbn [length]. lia.
    + eexists _, _. split; [reflexivity|].
      rewrite sends_print, sends_send. cbn [length]. lia.
Qed.

(** What one row costs: no call unless the row is due, at most three calls
    if it is, and a notification is counted only after a call. *)
Lemma single_row_budget today r (s : stats) (t : list event) :
  exists s' t',
    process_row ses today r s t = (Ok tt, s', t') /\
    let due := if single_due today r then 1 else 0 in
    let calls := Z.of_nat (sends t') - Z.of_nat (sends t) in
    0 <= notified s' - notified s <= due /\
    notified s' - notified s <= calls /\
    0 <= calls <= 3 * due.
Proof.
  unfold process_row, row_body, single_due.
  destruct (expiry_date_str_of (row_cells r)) as [[|c0 s0]|].
  1, 3: run_eff; eexists _, _; (split; [reflexivity|]);
        rewrite !sends_print; cbn; lia.
  set (str := String c0 s0).
  destruct (Strptime.strptime str) as [e|expiry_date]; run_eff.
  { eexists _, _. split; [reflexivity|]. rewrite !sends_print. cbn. lia. }
  destruct (notifiable _).
  2: { eexists _, _. split; [reflexivity|]. rewrite !sends_print. cbn. lia. }
  destruct (email_column_of (row_cells r)) as [email_column|].
  2: { eexists _, _. split; [reflexivity|]. rewrite !sends_print. cbn. lia. }
  unfold send_formatted_email.
  match goal with
  | |- context [retry_loop ses ?a ?b ?c ?d ?e ?f] =>
      destruct (single_retry_loop_calls a b c d e f) as (res & t' & -> & Hb & Hlt);
      assert (sends t < sends t')%nat as Hcall
        by (rewrite !sends_print in Hlt, Hb; apply Hlt; discriminate);
      assert (sends t' <= sends t + 3)%nat as Hmax
        by (rewrite !sends_print in Hb; apply Hb)
  end.
  destruct res; eexists _, _; (split; [reflexivity|]);
    rewrite ?sends_print; cbn; lia.
Qed.

(** X5: over any rows and any transport, the loop of the single-key variant
    counts at most one notification per due row, never more notifications
    than it has made calls to the transport, and makes at most three calls
    per due row; rows that are not due cost no call. *)
Theorem X5_single_call_budget today (rows : list row) (s : stats)
    (t : list event) :
  exists s' t',
    for_each rows (process_row ses today) s t = (Ok tt, s', t') /\
    let due := Z.of_nat (length (filter (fun r => single_due today r = true)
                                        rows)) in
    let calls := Z.of_nat (sends t') - Z.of_nat (sends t) in
    0 <= notified s' - notified s <= due /\
    notified s' - notified s <= calls /\
    0 <= calls <= 3 * due.
Proof.
  revert s t. induction rows as [|r rows IH]; intros s t; cbn [for_each].
  - run_eff. eexists _, _. split; [reflexivity|]. cbn. lia.
  - unfold Eff.bind at 1.
    destruct (single_row_budget today r s t) as (s1 & t1 & -> & H1).
    destruct (IH s1 t1) as (s2 & t2 & -> & H2).
    eexists _, _. split; [reflexivity|].
    rewrite filter_cons. cbv zeta in *.
    destruct (single_due today r).
    + rewrite decide_True by reflexivity. cbn [length]. lia.
    + rewrite decide_False by discriminate. lia.
Qed.

End SingleBudget.

(** ** How many calls a run of the consolidated variant makes *)

Section ConsolidatedBudget.
Import Consolidated.

Lemma sleeps_app (t1 t2 : list event) :
  sleeps (t1 ++ t2) = (sleeps t1 + sleeps t2)%nat.
Proof. unfold sleeps. rewrite filter_app, length_app. reflexivity. Qed.

Lemma sleeps_print (t : list event) l : sleeps (t ++ [Print l]) = sleeps t.
Proof. rewrite sleeps_app. change (sleeps [Print l]) with 0%nat. lia. Qed.

Lemma sleeps_send (t : list event) q : sleeps (t ++ [SendEmail q]) = sleeps t.
Proof. rewrite sleeps_app. change (sleeps [SendEmail q]) with 0%nat. lia. Qed.

Ltac quiet := rewrite ?sends_print, ?sleeps_print.

Lemma consolidated_row_counts today r (s : locals) t :
  exists s' t',
    process_row today r s t = (Ok tt, s', t') /\
    processed s <= processed s' <= processed s + 1 /\
    notifications_sent s' = notifications_sent s /\
    sends t' = sends t /\ sleeps t' = sleeps t.
Proof.
  unfold process_row, row_body. run_eff.
  destruct (strip_keys r) as [e|c]; cbn [recipient_keys notifications_sent].
  { eexists _, _. split; [reflexivity|]. quiet. cbn. auto with lia. }
  destruct (expiry_date_str_of c) as [[|c0 s0]|].
  1, 3: eexists _, _; (split; [reflexivity|]); quiet; cbn; auto with lia.
  set (str := String c0 s0).
  destruct (is_na str).
  { eexists _, _. split; [reflexivity|]. quiet. cbn. auto with lia. }
  destruct (Strptime.strptime str) as [e|parsed].
  { eexists _, _. split; [reflexivity|]. quiet. cbn. auto with lia. }
  destruct (notifiable _).
  2: { eexists _, _. split; [reflexivity|]. quiet. cbn. auto with lia. }
  destruct (email_column_of c) as [email_column|].
  2: { eexists _, _. split; [reflexivity|]. quiet. cbn. auto with lia. }
  destruct (PyStr.nonempty (PyStr.strip email_column)).
  2: { eexists _, _. split; [reflexivity|]. quiet. cbn. auto with lia. }
  rewrite add_recipients_run.
  eexists _, _. split; [reflexivity|]. quiet. cbn. auto with lia.
Qed.

Lemma consolidated_rows_counts today rows (s : locals) t :
  exists s' t',
    for_each rows (process_row today) s t = (Ok tt, s', t') /\
    processed s <= processed s' <= processed s + Z.of_nat (length rows) /\
    notifications_sent s' = notifications_sent s /\
    sends t' = sends t /\ sleeps t' = sleeps t.
Proof.
  revert s t. induction rows as [|r rows IH]; intros s t; cbn [for_each].
  - run_eff. eexists _, _. split; [reflexivity|]. cbn. auto with lia.
  - unfold Eff.bind at 1.
    destruct (consolidated_row_counts today r s t)
      as (s1 & t1 & -> & Hp1 & Hn1 & Hs1 & Hz1).
    destruct (IH s1 t1) as (s2 & t2 & -> & Hp2 & Hn2 & Hs2 & Hz2).
    eexists _, _. split; [reflexivity|]. cbn [length].
    repeat split; first [lia | congruence].
Qed.

Lemma consolidated_retry_loop_calls {St} ses req recipient attempts
    (s : St) (t : list event) :
  exists n t',
    retry_loop ses req recipient attempts s t = (Ok n, s, t') /\
    (sends t <= sends t' <= sends t + length attempts)%nat /\
    (attempts <> [] -> (sends t < sends t')%nat) /\
    0 <= n <= 1 /\ sleeps t' = sleeps t.
Proof.
  revert t. induction attempts as [|attempt rest IH]; intros t; cbn [retry_loop].
  - run_eff. eexists _, _. split; [reflexivity|]. cbn [length]. quiet.
    split; [lia|]. split; [intros H; destruct H; reflexivity|]. lia.
  - run_eff. destruct (ses (sends t) req) as [e|response].
    + match goal with
      | |- context [retry_loop ses req recipient rest s ?t1] =>
          destruct (IH t1) as (n & t' & -> & Hb & _ & Hn & Hz);
          assert (sends t1 = Datatypes.S (sends t)) as Ht1
            by (rewrite sends_print, sends_send; reflexivity);
          assert (sleeps t1 = sleeps t) as Hz1
            by (rewrite sleeps_print, sleeps_send; reflexivity)
      end.
      eexists _, _. split; [reflexivity|]. cbn [length].
      repeat split; first [lia | congruence].
    + eexists _, _. split; [reflexivity|].
      rewrite sends_print, sends_send, sleeps_print, sleeps_send.
      cbn [length]. repeat split; lia.
Qed.

Lemma notify_budget ses (rk : string * list key_entry) (s : locals) t :
  exists n t',
    notify ses rk s t =
      (Ok tt,
       Locals (processed s) (recipient_keys s) (notifications_sent s + n)
              (row_var s),
       t') /\
    (sends t + 1 <= sends t' <= sends t + 3)%nat /\
    0 <= n <= 1 /\ sleeps t' = sleeps t.
Proof.
  unfold notify, send_consolidated_email.
  unfold Eff.bind at 1. unfold Eff.print at 1, Eff.emit.
  unfold Eff.try_except, Eff.bind.
  match goal with
  | |- context [retry_loop ses ?req ?k ?att s ?t1] =>
      destruct (consolidated_retry_loop_calls ses req k att s t1)
        as (n & t' & -> & Hb & Hlt & Hn & Hz)
  end.
  rewrite sends_print in Hb, Hlt. rewrite sleeps_print in Hz.
  change (length (Py.range max_retries)) with 3%nat in Hb.
  unfold Eff.modify. eexists _, _. split; [reflexivity|].
  split; [|split; assumption].
  assert (sends t < sends t')%nat by (apply Hlt; discriminate). lia.
Qed.

Lemma notify_all_budget ses (items : list (string * list key_entry))
    (s : locals) t :
  exists ns t',
    for_each items (notify ses) s t =
      (Ok tt, Locals (processed s) (recipient_keys s) ns (row_var s), t') /\
    (sends t + length items <= sends t' <= sends t + 3 * length items)%nat /\
    notifications_sent s <= ns <= notifications_sent s + Z.of_nat (length items) /\
    sleeps t' = sleeps t.
Proof.
  revert s t. induction items as [|rk items IH]; intros s t; cbn [for_each].
  - run_eff. destruct s. eexists _, _. split; [reflexivity|]. cbn. lia.
  - unfold Eff.bind at 1.
    destruct (notify_budget ses rk s t) as (n & t1 & -> & Hb1 & Hn1 & Hz1).
    match goal with
    | |- context [for_each items _ ?s1 t1] =>
        destruct (IH s1 t1) as (ns & t2 & -> & Hb2 & Hn2 & Hz2)
    end.
    cbn [processed recipient_keys notifications_sent row_var] in *.
    eexists _, _. split; [reflexivity|]. cbn [length].
    repeat split; first [lia | congruence].
Qed.

(** X6: a run of the consolidated handler over a manifest that was fetched
    never pauses; it calls the transport at most three times per recipient
    of [recipient_keys], and at least once per recipient when the reader did
    not fail; [notifications_sent] ends between 0 and the number of
    recipients and [processed] between 0 and the number of rows. *)
Theorem X6_consolidated_call_budget today ses fieldnames rows stop :
  exists s t,
    lambda_handler (Manifest fieldnames rows stop) ses today = (Ok tt, s, t) /\
    let n := length (recipient_keys s) in
    (sends t <= 3 * n)%nat /\
    (stop = None -> (n <= sends t)%nat) /\
    0 <= notifications_sent s <= Z.of_nat n /\
    0 <= processed s <= Z.of_nat (length rows) /\
    sleeps t = 0%nat.
Proof.
  unfold lambda_handler, run, Eff.for_rows.
  unfold Eff.try_except at 1, Eff.bind at 1 2 3 4.
  unfold Eff.print at 1 2, Eff.emit, Eff.modify at 1.
  unfold Eff.bind at 1.
  match goal with
  | |- context [for_each rows ?b ?s0 ?t0] =>
      destruct (consolidated_rows_counts today rows s0 t0)
        as (s1 & t1 & -> & Hp & Hn & Hs & Hz)
  end.
  change (sends _) with 0%nat in Hs at 2.
  change (sleeps _) with 0%nat in Hz at 2.
  cbn [processed notifications_sent] in Hp, Hn.
  destruct stop as [e|].
  - unfold Eff.raise, Eff.print, Eff.emit.
    eexists _, _. split; [reflexivity|]. cbv zeta.
    rewrite sends_print, sleeps_print, Hs, Hz, Hn.
    repeat split; first [lia | discriminate].
  - unfold Eff.ret, send_emails.
    unfold Eff.try_except, Eff.bind at 1 2 3.
    unfold Eff.modify at 1, Eff.get at 1.
    match goal with
    | |- context [for_each ?items (notify ses) ?s2 t1] =>
        destruct (notify_all_budget ses items s2 t1)
          as (ns & t2 & -> & Hb & Hns & Hz2)
    end.
    cbn [processed recipient_keys notifications_sent row_var] in *.
    run_eff. eexists _, _. split; [reflexivity|]. cbv zeta.
    cbn [processed recipient_keys notifications_sent].
    rewrite sends_print, sleeps_print.
    repeat split; first [lia | congruence].
Qed.

End ConsolidatedBudget.

(** ** What the bundles hold *)

Section BundleContents.
Import Calendar Consolidated.

Lemma lookup_Some_key {V} (k : string) (v : V) (d : PyDict.pydict V) :
  PyDict.lookup k d = Some v -> In k (map fst d).
Proof.
  induction d as [|[k0 v0] d IH]; cbn [PyDict.lookup map fst]; [discriminate|].
  destruct (String.eqb_spec k0 k) as [->|Hne]; [left; reflexivity|].
  intros H. right. exact (IH H).
Qed.

(** The keys of [recipient_keys] after a list of appends: the keys it had,
    then the new recipients where they first occur. *)
Lemma keys_append_all (l : list (string * key_entry)) d :
  map fst (append_all d l) =
  map fst d ++ filter (fun x => x ∉ map fst d) (first_seen (map fst l)).
Proof.
  revert d. induction l as [|[k x] l IH]; intros d.
  - cbn. rewrite app_nil_r. reflexivity.
  - change (append_all d ((k, x) :: l))
      with (append_all (PyDict.setdefault_append k x d) l).
    rewrite IH, keys_setdefault_append. cbn [map fst first_seen].
    rewrite filter_cons.
    destruct (PyDict.lookup k d) as [v|] eqn:E.
    + apply lookup_Some_key, list_elem_of_In in E.
      rewrite decide_False by (intros H; exact (H E)).
      f_equal. rewrite list_filter_filter. apply list_filter_iff.
      intros y. split; [intros H; split; [exact H|]|intros [H _]; exact H].
      intros ->. exact (H E).
    + pose proof (lookup_None_not_key _ _ E) as Hk.
      rewrite decide_True by (intros H; apply Hk, list_elem_of_In, H).
      rewrite <- app_assoc. cbn [app]. do 2 f_equal.
      rewrite list_filter_filter. apply list_filter_iff.
      intros y. rewrite not_elem_of_app, list_elem_of_singleton. reflexivity.
Qed.

Lemma first_seen_NoDup (l : list string) : NoDup (first_seen l).
Proof.
  induction l as [|k l IH]; cbn [first_seen]; constructor.
  - rewrite list_elem_of_filter. intros [H _]. apply H. reflexivity.
  - apply NoDup_filter, IH.
Qed.

Lemma entries_for_In k e (l : list (string * key_entry)) :
  In e (entries_for k l) <-> In (k, e) l.
Proof.
  unfold entries_for. rewrite in_map_iff. split.
  - intros ([k' e'] & <- & H). apply list_elem_of_In, list_elem_of_filter in H.
    destruct H as [Hk H]. cbn in Hk. subst k'. apply list_elem_of_In, H.
  - intros H. exists (k, e). split; [reflexivity|].
    apply list_elem_of_In, list_elem_of_filter. split; [reflexivity|].
    apply list_elem_of_In, H.
Qed.

Lemma lstrip_lstrip (x : string) : PyStr.lstrip (PyStr.lstrip x) = PyStr.lstrip x.
Proof.
  induction x as [|c r IH]; [reflexivity|]. cbn [PyStr.lstrip].
  destruct (PyStr.isspace c) eqn:Hc; [exact IH|].
  cbn [PyStr.lstrip]. rewrite Hc. reflexivity.
Qed.

Lemma rstrip_rstrip (x : string) : PyStr.rstrip (PyStr.rstrip x) = PyStr.rstrip x.
Proof.
  induction x as [|c r IH]; [reflexivity|]. rewrite rstrip_cons.
  destruct (PyStr.rstrip r) as [|c' r'] eqn:E.
  - destruct (PyStr.isspace c) eqn:Hc; [reflexivity|].
    rewrite rstrip_cons. cbn [PyStr.rstrip]. rewrite Hc. reflexivity.
  - rewrite rstrip_cons, IH. reflexivity.
Qed.

(** Trimming a trimmed text changes nothing. *)
Lemma strip_strip (x : string) : PyStr.strip (PyStr.strip x) = PyStr.strip x.
Proof.
  unfold PyStr.strip.
  rewrite <- (lstrip_rstrip (PyStr.lstrip x)), rstrip_rstrip, lstrip_rstrip.
  rewrite <- lstrip_rstrip, lstrip_lstrip. reflexivity.
Qed.

(** A resolved recipient is a trimmed text that is not empty. *)
Lemma recipients_spec_In (field x : string) :
  In x (recipients_spec field) ->
  PyStr.nonempty x = true /\ PyStr.strip x = x.
Proof.
  unfold recipients_spec. intros H.
  apply list_elem_of_In, list_elem_of_filter in H as [Hne H].
  split; [exact Hne|].
  apply list_elem_of_In, in_map_iff in H as (seg & <- & _). apply strip_strip.
Qed.

(** Where an append of a row comes from. *)
Lemma contribution_In today r rcp e :
  In (rcp, e) (contribution today r) ->
  exists c str parsed email_column,
    strip_keys r = inr c /\
    expiry_date_str_of c = Some str /\
    is_na str = false /\
    Strptime.strptime str = inr parsed /\
    notifiable (days_left (dt_date parsed) today) = true /\
    email_column_of c = Some email_column /\
    In rcp (recipients_spec email_column) /\
    e = KeyEntry (feed_name_of c) (key_name_of c) str
          (days_left (dt_date parsed) today).
Proof.
  unfold contribution.
  destruct (strip_keys r) as [e0|c]; [intros []|].
  destruct (expiry_date_str_of c) as [[|c0 s0]|] eqn:Hstr; try (intros []).
  destruct (is_na (String c0 s0)) eqn:Hna; [intros []|].
  destruct (Strptime.strptime (String c0 s0)) as [e0|parsed] eqn:Hp; [intros []|].
  destruct (notifiable _) eqn:Hn; [|intros []].
  destruct (email_column_of c) as [email_column|] eqn:Hcol; [|intros []].
  rewrite consolidated_recipients_spec, in_map_iff.
  intros (x & Heq & Hin). injection Heq as -> <-.
  exists c, (String c0 s0), parsed, email_column. repeat split; auto.
Qed.

Lemma in_contributions today rows rcp e :
  In (rcp, e) (concat (map (contribution today) rows)) ->
  exists r, In r rows /\ In (rcp, e) (contribution today r).
Proof.
  rewrite in_concat. intros (l & Hl & Hin).
  apply in_map_iff in Hl as (r & <- & Hr). eauto.
Qed.

(** X7: after a run of the consolidated handler, the recipients of
    [recipient_keys] are the recipients the rows name, without repetition and
    in the order in which the manifest first names them; the bundle of each
    is the list of the entries appended for it, in manifest order. *)
Theorem X7_bundles_in_manifest_order today ses fieldnames rows :
  exists s t,
    lambda_handler (Manifest fieldnames rows None) ses today = (Ok tt, s, t) /\
    let appended := concat (map (contribution today) rows) in
    map fst (recipient_keys s) = first_seen (map fst appended) /\
    forall rcp,
      PyDict.lookup rcp (recipient_keys s) =
        match entries_for rcp appended with [] => None | es => Some es end.
Proof.
  destruct (consolidated_run_mails today ses fieldnames rows)
    as (s & t & Hrun & Hkeys & _).
  exists s, t. split; [exact Hrun|]. cbv zeta. rewrite Hkeys. split.
  - rewrite keys_append_all. cbn [map app].
    induction (first_seen _) as [|y l IH]; [reflexivity|].
    rewrite filter_cons, decide_True by apply not_elem_of_nil.
    f_equal. exact IH.
  - intros rcp. rewrite lookup_append_all. reflexivity.
Qed.

Lemma bundle_is_entries today rows rcp keys :
  PyDict.lookup rcp
    (append_all [] (concat (map (contribution today) rows))) = Some keys ->
  keys <> [] /\
  forall e, In e keys <->
            In (rcp, e) (concat (map (contribution today) rows)).
Proof.
  rewrite lookup_append_all. cbn [PyDict.lookup].
  destruct (entries_for rcp _) as [|e0 es] eqn:E; [discriminate|].
  intros [= <-]. split; [discriminate|].
  intros e. rewrite <- E. apply entries_for_In.
Qed.

(** X8: every mail a completed run of the consolidated handler sends goes
    to one recipient of [recipient_keys] and is the rendering of its bundle;
    the recipients are distinct, each is a trimmed text that is not empty,
    and no bundle is empty. *)
Theorem X8_mail_addresses today ses fieldnames rows :
  exists s t,
    lambda_handler (Manifest fieldnames rows None) ses today = (Ok tt, s, t) /\
    NoDup (map fst (recipient_keys s)) /\
    forall q, In (SendEmail q) t ->
      exists rcp keys,
        q = request_for rcp keys /\
        PyDict.lookup rcp (recipient_keys s) = Some keys /\
        PyStr.nonempty rcp = true /\ PyStr.strip rcp = rcp /\ keys <> [].
Proof.
  destruct (consolidated_run_mails today ses fieldnames rows)
    as (s & t & Hrun & Hkeys & Hiff).
  assert (NoDup (map fst (recipient_keys s))) as Hnd.
  { rewrite Hkeys. apply keys_append_all_NoDup. constructor. }
  exists s, t. split; [exact Hrun|]. split; [exact Hnd|].
  intros q Hq. apply Hiff in Hq as (rcp & keys & Hin & ->).
  apply (lookup_of_In _ _ _ Hnd) in Hin.
  exists rcp, keys. split; [reflexivity|]. split; [exact Hin|].
  rewrite Hkeys in Hin. apply bundle_is_entries in Hin as [Hne Hmem].
  destruct keys as [|e keys]; [destruct Hne; reflexivity|].
  assert (In (rcp, e) (concat (map (contribution today) rows))) as He
    by (apply Hmem; left; reflexivity).
  apply in_contributions in He as (r & _ & He).
  apply contribution_In in He
    as (c & str & parsed & col & _ & _ & _ & _ & _ & _ & Hr & _).
  apply recipients_spec_In in Hr as [H1 H2]. auto.
Qed.

(** X9: every key a completed run of the consolidated handler lists for a
    recipient comes from a row of the manifest whose recipient field names
    that recipient; its feed name, key name and expiry text are those of the
    row, the expiry text parses as a date, and its days until expiry are the
    days from today to that date and lie within 0 and 30. *)
Theorem X9_bundle_provenance today ses fieldnames rows :
  exists s t,
    lambda_handler (Manifest fieldnames rows None) ses today = (Ok tt, s, t) /\
    forall rcp keys e,
      PyDict.lookup rcp (recipient_keys s) = Some keys -> In e keys ->
      exists r c parsed email_column,
        In r rows /\ strip_keys r = inr c /\
        feed_name e = feed_name_of c /\ key_name e = key_name_of c /\
        expiry_date_str_of c = Some (expiry_date e) /\
        Strptime.strptime (expiry_date e) = inr parsed /\
        days_until_expiry e = toordinal (dt_date parsed) - toordinal today /\
        0 <= days_until_expiry e <= 30 /\
        email_column_of c = Some email_column /\
        In rcp (recipients_spec email_column).
Proof.
  destruct (consolidated_run_mails today ses fieldnames rows)
    as (s & t & Hrun & Hkeys & _).
  exists s, t. split; [exact Hrun|].
  intros rcp keys e Hlookup He.
  rewrite Hkeys in Hlookup. apply bundle_is_entries in Hlookup as [_ Hmem].
  apply Hmem, in_contributions in He as (r & Hr & He).
  apply contribution_In in He
    as (c & str & parsed & col & Hc & Hstr & _ & Hp & Hn & Hcol & Hin & ->).
  exists r, c, parsed, col. cbn [feed_name key_name expiry_date days_until_expiry].
  rewrite consolidated_days_left in *.
  unfold notifiable in Hn. apply andb_prop in Hn as [H0 H30].
  apply Z.leb_le in H0, H30. repeat split; auto.
Qed.

End BundleContents.

(** ** The rendering of a bundle of any size *)

Section Rendering.
Import Consolidated.

Lemma sapp_assoc (a b c : string) : (a +:+ b) +:+ c = a +:+ (b +:+ c).
Proof.
  induction a as [|x a IH]; [reflexivity|].
  rewrite !sapp_cons, IH. reflexivity.
Qed.

Lemma sapp_nil_r (a : string) : a +:+ "" = a.
Proof.
  induction a as [|x a IH]; [reflexivity|]. rewrite sapp_cons, IH. reflexivity.
Qed.

(** A loop that adds one text per item of [enumerate] to an accumulator. *)
Lemma accumulate_enumerate {A} (f : Z -> A -> string) (l : list A) (n : Z)
    (acc : string) :
  fold_left (fun acc ik => acc +:+ f (fst ik) (snd ik)) (Py.enumerate n l) acc =
  acc +:+ join (imap (fun i x => f (Z.of_nat i + n) x) l).
Proof.
  revert n acc. induction l as [|x l IH]; intros n acc;
    cbn [Py.enumerate fold_left fst snd].
  - cbn. rewrite sapp_nil_r. reflexivity.
  - rewrite IH, imap_cons. unfold join. cbn [foldr]. rewrite sapp_assoc.
    change (Z.of_nat 0 + n) with n. do 3 f_equal.
    apply imap_ext. intros i y _. cbn. f_equal. lia.
Qed.

(** X10: for a bundle of any size, the table body is the rows of its keys
    in bundle order, the row of the key at position [i] (from 0) carrying
    the number [i + 1]; the plain text is the header, the lines of the same
    keys under the same numbers, and the footer.  For the empty bundle the
    table body is empty. *)
Theorem X10_rendering_numbers (key_data : list key_entry) :
  table_rows_html key_data =
    join (imap (fun i key => table_row_html (Z.of_nat i + 1) key) key_data) /\
  text_body key_data =
    text_header +:+
    join (imap (fun i key => text_line (Z.of_nat i + 1) key) key_data) +:+
    text_footer.
Proof.
  unfold table_rows_html, text_body. split.
  - rewrite (accumulate_enumerate table_row_html). reflexivity.
  - rewrite (accumulate_enumerate text_line), sapp_assoc. reflexivity.
Qed.

End Rendering.

(** ** Rows that are out of shape *)

Section RowShapes.
Import Calendar.

(** X11: in the consolidated variant a row with more cells than the header
    has names is given up before any of its fields is read: it is logged as
    an error, adds nothing to [recipient_keys] and changes no counter,
    whatever its cells hold. *)
Theorem X11_surplus_cells today (r : row) (surplus : list string)
    (s : Consolidated.locals) (t : list event) :
  row_rest r = Some surplus ->
  Consolidated.contribution today r = [] /\
  Consolidated.process_row today r s t =
    (Ok tt,
     Consolidated.Locals (Consolidated.processed s)
       (Consolidated.recipient_keys s) (Consolidated.notifications_sent s)
       (row_cells r),
     t ++ [Print (LogProcessingRow r);
           Print (LogErrorProcessing
                    (Some (PyStr.or_lit
                             (PyDict.get "GPG_Private_Key" (row_cells r))
                             "unknown"))
                    (AttributeError
                       "'NoneType' object has no attribute 'strip'"))]).
Proof.
  intros Hrest. split.
  - unfold Consolidated.contribution, Consolidated.strip_keys.
    rewrite Hrest. reflexivity.
  - unfold Consolidated.process_row, Consolidated.row_body,
      Consolidated.strip_keys.
    rewrite Hrest. run_eff. rewrite <- !app_assoc. reflexivity.
Qed.

Lemma X11_surplus_cells_witness :
  let r := Row [("GPG_Private_Key", Some "K1");
                ("GPG_Key_Expiry", Some "06-01-2024");
                ("PIC_Email", Some "r@x.com")] (Some ["extra"]) in
  row_rest r = Some ["extra"] /\
  Consolidated.contribution (Date 2024 1 1) r = [] /\
  Consolidated.contribution (Date 2024 1 1) (Row (row_cells r) None) <> [].
Proof.
  intros r. split; [reflexivity|]. split.
  - apply (X11_surplus_cells (Date 2024 1 1) r ["extra"]
             (Consolidated.Locals 0 [] 0 []) [] eq_refl).
  - discriminate.
Defined.

(** The single-key retry loop calls the transport with its request only,
    and calls it when it has a turn to make. *)
Lemma single_retry_loop_requests {St} ses req key_name recipients attempts
    (s : St) (t : list event) :
  exists r added,
    SingleKey.retry_loop ses req key_name recipients attempts s t =
      (r, s, t ++ added) /\
    (forall q, In (SendEmail q) added -> q = req) /\
    (attempts <> [] -> In (SendEmail req) added).
Proof.
  revert t. induction attempts as [|attempt rest IH]; intros t;
    cbn [SingleKey.retry_loop].
  - run_eff. exists (Ok None), []. rewrite app_nil_r.
    split; [reflexivity|]. split; [intros q []|].
    intros H. destruct H. reflexivity.
  - run_eff. destruct (ses (sends t) req) as [e|response].
    + destruct (attempt <? SingleKey.max_retries - 1).
      * match goal with
        | |- context [SingleKey.retry_loop ses req key_name recipients rest s ?t1] =>
            destruct (IH t1) as (r & added & -> & Hall & _)
        end.
        exists r, ([SendEmail req;
                    Print (LogAttemptFailed (attempt + 1) key_name None);
                    Sleep 1] ++ added).
        split; [rewrite <- !app_assoc; reflexivity|]. split.
        -- intros q [Hq|[Hq|[Hq|Hq]]]; [congruence|discriminate|discriminate|auto].
        -- intros _. left. reflexivity.
      * exists (Raise e),
          [SendEmail req; Print (LogAllFailed SingleKey.max_retries key_name)].
        split; [rewrite <- !app_assoc; reflexivity|]. split.
        -- intros q [Hq|[Hq|[]]]; [congruence|discriminate].
        -- intros _. left. reflexivity.
    + exists (Ok (Some response)),
        [SendEmail req; Print (LogSendOk key_name recipients)].
      split; [rewrite <- !app_assoc; reflexivity|]. split.
      * intros q [Hq|[Hq|[]]]; [congruence|discriminate].
      * intros _. left. reflexivity.
Qed.

(** The mail of a due row and how the row is counted. *)
Lemma single_due_row_trace ses today (r : row) (str : string)
    (expiry : datetime) (email_column : string) (s : SingleKey.stats)
    (t : list event) :
  SingleKey.expiry_date_str_of (row_cells r) = Some str ->
  PyStr.nonempty str = true ->
  Strptime.strptime str = inr expiry ->
  SingleKey.notifiable (SingleKey.days_until_expiry expiry today) = true ->
  SingleKey.email_column_of (row_cells r) = Some email_column ->
  let key_name := SingleKey.key_name_of (row_cells r) in
  let d := SingleKey.days_until_expiry expiry today in
  let req := SesRequest SingleKey.sender_email
               (map PyStr.strip (PyStr.split PyStr.comma email_column))
               (SingleKey.subject key_name)
               (SingleKey.text_body key_name str d)
               (SingleKey.html_body key_name str d) in
  exists s' added,
    SingleKey.process_row ses today r s t = (Ok tt, s', t ++ added) /\
    In (SendEmail req) added /\
    (forall q, In (SendEmail q) added -> q = req) /\
    SingleKey.processed s' = SingleKey.processed s + 1 /\
    ((SingleKey.notified s' = SingleKey.notified s + 1 /\
      SingleKey.errors s' = SingleKey.errors s) \/
     (SingleKey.notified s' = SingleKey.notified s /\
      SingleKey.errors s' = SingleKey.errors s + 1)).
Proof.
  intros Hstr Hne Hparse Hnot Hcol key_name d req.
  unfold SingleKey.process_row, SingleKey.row_body.
  rewrite Hstr. destruct str as [|c0 s0]; [discriminate|].
  rewrite Hparse, Hcol.
  unfold Eff.bind at 1 2 3 4 5. unfold Eff.modify at 1, Eff.print at 1 2.
  unfold Eff.emit, Eff.of_sum, Eff.ret, Eff.try_except.
  rewrite Hnot. unfold Eff.bind at 1 2.
  unfold SingleKey.send_formatted_email, SingleKey.recipients_of.
  fold key_name d req.
  match goal with
  | |- context [SingleKey.retry_loop ses req ?k ?rc ?att ?s1 ?t1] =>
      destruct (single_retry_loop_requests ses req k rc att s1 t1)
        as (res & added & -> & Hall & Hsome)
  end.
  assert (In (SendEmail req) added) as Hin by (apply Hsome; discriminate).
  destruct res as [response|e]; run_eff; cbn [SingleKey.processed
    SingleKey.notified SingleKey.errors]; eexists _, _;
    (split; [rewrite <- !app_assoc; reflexivity|]).
  - split; [rewrite !in_app_iff; auto|]. split; [|auto].
    intros q Hq. rewrite !in_app_iff in Hq. cbn [In] in Hq.
    intuition (try discriminate; auto).
  - split; [rewrite !in_app_iff; auto|]. split; [|auto].
    intros q Hq. rewrite !in_app_iff in Hq. cbn [In] in Hq.
    intuition (try discriminate; auto).
Qed.

(** What a delivery of the single-key variant makes of the answers of the
    transport: it returns the response of a call that succeeded, or raises
    the exception of the third call after three calls that failed. *)
Lemma single_delivery_outcome {St} ses sender recipients key_name expiry_date
    days_remaining (s : St) (t : list event) :
  let req := SesRequest sender recipients (SingleKey.subject key_name)
               (SingleKey.text_body key_name expiry_date days_remaining)
               (SingleKey.html_body key_name expiry_date days_remaining) in
  exists r added,
    SingleKey.send_formatted_email ses sender recipients key_name expiry_date
      days_remaining s t = (r, s, t ++ added) /\
    In (SendEmail req) added /\
    (forall q, In (SendEmail q) added -> q = req) /\
    (1 <= sends added <= 3)%nat /\
    match r with
    | Ok (Some response) =>
        ses (sends t + (sends added - 1))%nat req = inr response
    | Ok None => False
    | Raise e =>
        sends added = 3%nat /\
        (forall i, (i < 3)%nat -> exists e', ses (sends t + i)%nat req = inl e') /\
        ses (sends t + 2)%nat req = inl e
    end.
Proof.
  intros req. unfold SingleKey.send_formatted_email. fold req.
  change (Py.range SingleKey.max_retries) with [0; 1; 2].
  cbn [SingleKey.retry_loop]. run_eff.
  change (0 <? SingleKey.max_retries - 1) with true.
  change (1 <? SingleKey.max_retries - 1) with true.
  change (2 <? SingleKey.max_retries - 1) with false.
  cbv beta iota.
  assert (forall (l : list event),
            In (SendEmail req) (SendEmail req :: l)) as Hhd
    by (intros l; left; reflexivity).
  destruct (ses (sends t) req) as [e0|r0] eqn:E0.
  2: { exists (Ok (Some r0)),
         [SendEmail req; Print (LogSendOk key_name recipients)].
       rewrite <- !app_assoc. split; [reflexivity|]. split; [apply Hhd|].
       split; [intros q Hq; cbn [In] in Hq;
               intuition (try discriminate; congruence)|].
       change (sends [_; _]) with 1%nat. split; [lia|].
       replace (sends t + (1 - 1))%nat with (sends t) by lia.
       first [assumption | reflexivity]. }
  cbv beta iota.
  repeat (rewrite sends_sleep || rewrite sends_print || rewrite sends_send).
  replace (Datatypes.S (sends t)) with (sends t + 1)%nat by lia.
  destruct (ses (sends t + 1)%nat req) as [e1|r1] eqn:E1.
  2: { exists (Ok (Some r1)),
         [SendEmail req; Print (LogAttemptFailed (0 + 1) key_name None);
          Sleep 1; SendEmail req; Print (LogSendOk key_name recipients)].
       rewrite <- !app_assoc. split; [reflexivity|]. split; [apply Hhd|].
       split; [intros q Hq; cbn [In] in Hq;
               intuition (try discriminate; congruence)|].
       change (sends [_; _; _; _; _]) with 2%nat. split; [lia|].
       first [assumption | reflexivity]. }
  cbv beta iota.
  repeat (rewrite sends_sleep || rewrite sends_print || rewrite sends_send).
  replace (Datatypes.S (Datatypes.S (sends t))) with (sends t + 2)%nat by lia.
  destruct (ses (sends t + 2)%nat req) as [e2|r2] eqn:E2.
  - exists (Raise e2),
      [SendEmail req; Print (LogAttemptFailed (0 + 1) key_name None); Sleep 1;
       SendEmail req; Print (LogAttemptFailed (1 + 1) key_name None); Sleep 1;
       SendEmail req; Print (LogAllFailed SingleKey.max_retries key_name)].
    rewrite <- !app_assoc. split; [reflexivity|]. split; [apply Hhd|].
    split; [intros q Hq; cbn [In] in Hq;
            intuition (try discriminate; congruence)|].
    change (sends [_; _; _; _; _; _; _; _]) with 3%nat. split; [lia|].
    split; [reflexivity|]. split; [|first [assumption | reflexivity]].
    intros i Hi. assert (i = 0 \/ i = 1 \/ i = 2)%nat as [-> | [-> | ->]] by lia;
      rewrite ?Nat.add_0_r; eauto.
  - exists (Ok (Some r2)),
      [SendEmail req; Print (LogAttemptFailed (0 + 1) key_name None); Sleep 1;
       SendEmail req; Print (LogAttemptFailed (1 + 1) key_name None); Sleep 1;
       SendEmail req; Print (LogSendOk key_name recipients)].
    rewrite <- !app_assoc. split; [reflexivity|]. split; [apply Hhd|].
    split; [intros q Hq; cbn [In] in Hq;
            intuition (try discriminate; congruence)|].
    change (sends [_; _; _; _; _; _; _; _]) with 3%nat. split; [lia|].
    first [assumption | reflexivity].
Qed.

(** X12: for a row that is due and has a recipient field, the single-key
    variant makes one request and no other, at least once and at most three
    times: from the fixed sender, to all the trimmed segments of the
    recipient field at once, its subject and bodies showing the key name,
    the expiry text as it stands in the manifest and the days until expiry.
    The row is counted in [processed].  It is counted in [notified], and
    logged as notified, exactly when the last call made succeeded; it is
    counted in [errors], and the exception of the third call logged, exactly
    when three calls were made and all three failed. *)
Theorem X12_single_mail_of_a_row ses today (r : row) (str : string)
    (expiry : datetime) (email_column : string) (s : SingleKey.stats)
    (t : list event) :
  SingleKey.expiry_date_str_of (row_cells r) = Some str ->
  PyStr.nonempty str = true ->
  Strptime.strptime str = inr expiry ->
  SingleKey.notifiable (SingleKey.days_until_expiry expiry today) = true ->
  SingleKey.email_column_of (row_cells r) = Some email_column ->
  let key_name := SingleKey.key_name_of (row_cells r) in
  let d := SingleKey.days_until_expiry expiry today in
  let recipients := map PyStr.strip (PyStr.split PyStr.comma email_column) in
  let req := SesRequest SingleKey.sender_email recipients
               (SingleKey.subject key_name)
               (SingleKey.text_body key_name str d)
               (SingleKey.html_body key_name str d) in
  exists s' added,
    SingleKey.process_row ses today r s t = (Ok tt, s', t ++ added) /\
    In (SendEmail req) added /\
    (forall q, In (SendEmail q) added -> q = req) /\
    (1 <= sends added <= 3)%nat /\
    SingleKey.processed s' = SingleKey.processed s + 1 /\
    (((exists response,
         ses (sends t + (sends added - 1))%nat req = inr response) /\
      SingleKey.notified s' = SingleKey.notified s + 1 /\
      SingleKey.errors s' = SingleKey.errors s /\
      last added = Some (Print (LogNotificationSent key_name recipients))) \/
     (sends added = 3%nat /\
      (forall i, (i < 3)%nat -> exists e, ses (sends t + i)%nat req = inl e) /\
      SingleKey.notified s' = SingleKey.notified s /\
      SingleKey.errors s' = SingleKey.errors s + 1 /\
      exists e,
        ses (sends t + 2)%nat req = inl e /\
        last added =
          Some (Print (LogErrorProcessing
                         (SingleKey.error_key_of (row_cells r)) e)))).
Proof.
  intros Hstr Hne Hparse Hnot Hcol key_name d recipients req.
  unfold SingleKey.process_row, SingleKey.row_body.
  rewrite Hstr. destruct str as [|c0 s0]; [discriminate|].
  rewrite Hparse, Hcol.
  unfold Eff.bind at 1 2 3 4 5. unfold Eff.modify at 1, Eff.print at 1 2.
  unfold Eff.emit, Eff.of_sum, Eff.ret, Eff.try_except.
  rewrite Hnot. unfold Eff.bind at 1 2.
  unfold SingleKey.recipients_of. fold key_name d recipients.
  match goal with
  | |- context [SingleKey.send_formatted_email ses ?a ?b ?c ?e ?f ?s1 ?t1] =>
      destruct (single_delivery_outcome ses a b c e f s1 t1)
        as (res & added & -> & Hin & Hall & Hcalls & Hres);
      assert (sends t1 = sends t) as Ht1 by (rewrite !sends_print; reflexivity)
  end.
  fold req in Hin, Hall, Hres. rewrite Ht1 in Hres.
  assert (forall l1 l2 : list event,
            sends ([Print (LogProcessingRow r);
                    Print (LogKey key_name (String c0 s0) d)] ++ l1 ++ l2) =
            (sends l1 + sends l2)%nat) as Hcount.
  { intros l1 l2. rewrite !sends_app. reflexivity. }
  destruct res as [[response|]|e]; [| destruct Hres |]; run_eff;
    cbn [SingleKey.processed SingleKey.notified SingleKey.errors].
  - exists (SingleKey.Stats (SingleKey.processed s + 1)
              (SingleKey.notified s + 1) (SingleKey.errors s)),
      ([Print (LogProcessingRow r); Print (LogKey key_name (String c0 s0) d)]
       ++ added ++ [Print (LogNotificationSent key_name recipients)]).
    split; [rewrite <- !app_assoc; reflexivity|].
    split; [rewrite !in_app_iff; auto|].
    split; [intros q Hq; rewrite !in_app_iff in Hq; cbn [In] in Hq;
            intuition (try discriminate; auto)|].
    rewrite Hcount. change (sends [Print _]) with 0%nat.
    rewrite Nat.add_0_r. split; [exact Hcalls|]. split; [reflexivity|].
    left. split; [eauto|]. split; [reflexivity|]. split; [reflexivity|].
    rewrite !app_assoc. apply last_snoc.
  - destruct Hres as (H3 & Hfail & He).
    exists (SingleKey.Stats (SingleKey.processed s + 1)
              (SingleKey.notified s) (SingleKey.errors s + 1)),
      ([Print (LogProcessingRow r); Print (LogKey key_name (String c0 s0) d)]
       ++ added ++ [Print (LogErrorProcessing
                             (SingleKey.error_key_of (row_cells r)) e)]).
    split; [rewrite <- !app_assoc; reflexivity|].
    split; [rewrite !in_app_iff; auto|].
    split; [intros q Hq; rewrite !in_app_iff in Hq; cbn [In] in Hq;
            intuition (try discriminate; auto)|].
    rewrite Hcount. change (sends [Print _]) with 0%nat.
    rewrite Nat.add_0_r. split; [exact Hcalls|]. split; [reflexivity|].
    right. split; [exact H3|]. split; [exact Hfail|].
    split; [reflexivity|]. split; [reflexivity|].
    exists e. split; [exact He|]. rewrite !app_assoc. apply last_snoc.
Qed.

Lemma X12_single_mail_of_a_row_witness :
  let r := mk_row "K1" "03-01-2024" " a@x.com ,b@x.com" in
  let today := DateTime (Date 2024 1 1) 10 0 0 0 in
  exists s' added,
    SingleKey.process_row transport_up today r (SingleKey.Stats 0 0 0) [] =
      (Ok tt, s', added) /\
    In (SendEmail
          (SesRequest "avarikoti@gmail.com" ["a@x.com"; "b@x.com"]
             "Key Expiration Alert: K1 - Action Required"
             (SingleKey.text_body "K1" "03-01-2024" 1)
             (SingleKey.html_body "K1" "03-01-2024" 1))) added /\
    SingleKey.notified s' = 1 /\ SingleKey.errors s' = 0.
Proof.
  intros r today.
  destruct (X12_single_mail_of_a_row transport_up today r "03-01-2024"
              (midnight (Date 2024 1 3)) " a@x.com ,b@x.com"
              (SingleKey.Stats 0 0 0) []
              eq_refl eq_refl eq_refl eq_refl eq_refl)
    as (s' & added & Hrun & Hin & _ & _ & _ & Hcount).
  exists s', added. split; [exact Hrun|]. split; [exact Hin|].
  destruct Hcount as [(_ & Hn & He & _) | (_ & Hfail & _)].
  - split; assumption.
  - destruct (Hfail 0%nat) as [e He]; [lia|]. discriminate He.
Defined.

(** X13: a row whose cells have neither a PIC_Email nor a PIC_email column.
    If it is due, the single-key variant still calls the transport, with the
    one empty address as its recipients.  The consolidated variant counts
    such a row, when its date parses, in [processed] and adds nothing to
    [recipient_keys]. *)
Theorem X13_no_recipient_column (c : PyDict.cells) (str : string)
    (expiry : datetime) :
  PyDict.lookup "PIC_Email" c = None ->
  PyDict.lookup "PIC_email" c = None ->
  PyStr.nonempty str = true ->
  Strptime.strptime str = inr expiry ->
  (forall ses today r (s : SingleKey.stats) t,
     row_cells r = c ->
     SingleKey.expiry_date_str_of c = Some str ->
     SingleKey.notifiable (SingleKey.days_until_expiry expiry today) = true ->
     exists s' added,
       SingleKey.process_row ses today r s t = (Ok tt, s', t ++ added) /\
       (exists q, In (SendEmail q) added) /\
       (forall q, In (SendEmail q) added -> ToAddresses q = [""])) /\
  (forall today r (s : Consolidated.locals) t,
     Consolidated.strip_keys r = inr c ->
     Consolidated.expiry_date_str_of c = Some str ->
     Consolidated.is_na str = false ->
     let d := Consolidated.days_left (dt_date expiry) today in
     Consolidated.process_row today r s t =
       (Ok tt,
        Consolidated.Locals (Consolidated.processed s + 1)
          (Consolidated.recipient_keys s) (Consolidated.notifications_sent s) c,
        t ++ [Print (LogProcessingRow r);
              Print (LogKeyDate (Consolidated.key_name_of c)
                       (dt_date expiry) d)])).
Proof.
  intros H1 H2 Hne Hparse.
  assert (SingleKey.email_column_of c = Some "") as Hcol.
  { unfold SingleKey.email_column_of, PyDict.get, PyDict.get_or.
    rewrite H1, H2. reflexivity. }
  split.
  - intros ses today r s t Hc Hstr Hnot. subst c.
    destruct (single_due_row_trace ses today r str expiry "" s t Hstr Hne Hparse Hnot Hcol)
      as (s' & added & Hrun & Hin & Hall & _).
    exists s', added. split; [exact Hrun|]. split; [eauto|].
    intros q Hq. rewrite (Hall q Hq). reflexivity.
  - intros today r s t Hc Hstr Hna d.
    unfold Consolidated.process_row, Consolidated.row_body.
    rewrite Hc. run_eff. cbv beta iota. rewrite Hstr.
    destruct str as [|c0 s0]; [discriminate|].
    rewrite Hna, Hparse.
    change (Consolidated.email_column_of c) with (SingleKey.email_column_of c).
    rewrite Hcol. fold d.
    destruct (Consolidated.notifiable d); cbn;
      rewrite <- !app_assoc; reflexivity.
Qed.

Lemma X13_no_recipient_column_witness :
  let c := [("GPG_Private_Key", Some "K1"); ("GPG_Key_Expiry", Some "03-01-2024")] in
  let r := Row c None in
  let today := DateTime (Date 2024 1 1) 10 0 0 0 in
  PyDict.lookup "PIC_Email" c = None /\
  PyDict.lookup "PIC_email" c = None /\
  exists s' added,
    SingleKey.process_row transport_up today r (SingleKey.Stats 0 0 0) [] =
      (Ok tt, s', added) /\
    (exists q, In (SendEmail q) added) /\
    (forall q, In (SendEmail q) added -> ToAddresses q = [""]).
Proof.
  intros c r today. split; [reflexivity|]. split; [reflexivity|].
  destruct (X13_no_recipient_column c "03-01-2024" (midnight (Date 2024 1 3))
              eq_refl eq_refl eq_refl eq_refl) as [Hsingle _].
  apply (Hsingle transport_up today r (SingleKey.Stats 0 0 0) []
           eq_refl eq_refl eq_refl).
Defined.

(** X14: a row from a line too short to have a recipient cell, so that the
    cell under PIC_email is [None] and PIC_Email gives nothing.  When the row
    is due, both variants fail on the missing text before any recipient is
    resolved: the single-key variant counts the row in [errors] and calls
    the transport not at all; the consolidated variant logs the error, adds
    nothing to [recipient_keys] and leaves [processed] as it was. *)
Theorem X14_recipient_cell_none (c : PyDict.cells) (str : string)
    (expiry : datetime) :
  PyStr.truthy (PyDict.get "PIC_Email" c) = false ->
  PyDict.lookup "PIC_email" c = Some None ->
  PyStr.nonempty str = true ->
  Strptime.strptime str = inr expiry ->
  (forall ses today r (s : SingleKey.stats) t,
     row_cells r = c ->
     SingleKey.expiry_date_str_of c = Some str ->
     let d := SingleKey.days_until_expiry expiry today in
     SingleKey.notifiable d = true ->
     SingleKey.process_row ses today r s t =
       (Ok tt,
        SingleKey.Stats (SingleKey.processed s + 1) (SingleKey.notified s)
                        (SingleKey.errors s + 1),
        t ++ [Print (LogProcessingRow r);
              Print (LogKey (SingleKey.key_name_of c) str d);
              Print (LogErrorProcessing (SingleKey.error_key_of c)
                       (AttributeError
                          "'NoneType' object has no attribute 'split'"))])) /\
  (forall today r (s : Consolidated.locals) t,
     Consolidated.strip_keys r = inr c ->
     Consolidated.expiry_date_str_of c = Some str ->
     Consolidated.is_na str = false ->
     let d := Consolidated.days_left (dt_date expiry) today in
     Consolidated.notifiable d = true ->
     Consolidated.process_row today r s t =
       (Ok tt,
        Consolidated.Locals (Consolidated.processed s)
          (Consolidated.recipient_keys s) (Consolidated.notifications_sent s) c,
        t ++ [Print (LogProcessingRow r);
              Print (LogKeyDate (Consolidated.key_name_of c) (dt_date expiry) d);
              Print (LogErrorProcessing
                       (Some (PyStr.or_lit (PyDict.get "GPG_Private_Key" c)
                                           "unknown"))
                       (AttributeError
                          "'NoneType' object has no attribute 'strip'"))])).
Proof.
  intros H1 H2 Hne Hparse.
  assert (SingleKey.email_column_of c = None) as Hcol.
  { unfold SingleKey.email_column_of, PyStr.or_, PyDict.get_or.
    rewrite H1, H2. reflexivity. }
  split.
  - intros ses today r s t Hc Hstr d Hnot. subst c.
    unfold SingleKey.process_row, SingleKey.row_body.
    rewrite Hstr. destruct str as [|c0 s0]; [discriminate|].
    rewrite Hparse, Hcol. run_eff. unfold d in Hnot. rewrite Hnot.
    rewrite <- !app_assoc. reflexivity.
  - intros today r s t Hc Hstr Hna d Hnot.
    unfold Consolidated.process_row, Consolidated.row_body.
    rewrite Hc. run_eff. cbv beta iota. rewrite Hstr.
    destruct str as [|c0 s0]; [discriminate|].
    rewrite Hna, Hparse.
    change (Consolidated.email_column_of c) with (SingleKey.email_column_of c).
    rewrite Hcol. unfold d in Hnot. rewrite Hnot.
    rewrite <- !app_assoc. reflexivity.
Qed.

Lemma X14_recipient_cell_none_witness :
  let c := [("GPG_Private_Key", Some "K1"); ("GPG_Key_Expiry", Some "03-01-2024");
            ("PIC_email", None)] in
  let r := Row c None in
  PyStr.truthy (PyDict.get "PIC_Email" c) = false /\
  PyDict.lookup "PIC_email" c = Some None /\
  SingleKey.process_row transport_up (DateTime (Date 2024 1 1) 10 0 0 0) r
    (SingleKey.Stats 0 0 0) [] =
    (Ok tt, SingleKey.Stats 1 0 1,
     [Print (LogProcessingRow r); Print (LogKey "K1" "03-01-2024" 1);
      Print (LogErrorProcessing (Some "K1")
               (AttributeError "'NoneType' object has no attribute 'split'"))]).
Proof.
  intros c r. split; [reflexivity|]. split; [reflexivity|].
  destruct (X14_recipient_cell_none c "03-01-2024" (midnight (Date 2024 1 3))
              eq_refl eq_refl eq_refl eq_refl) as [Hsingle _].
  apply (Hsingle transport_up (DateTime (Date 2024 1 1) 10 0 0 0) r
           (SingleKey.Stats 0 0 0) [] eq_refl eq_refl eq_refl).
Defined.

End RowShapes.

(** ** Header names and the names of a key *)

Section Headers.

Lemma lookup_set {V} (k k' : string) (v : V) (d : PyDict.pydict V) :
  PyDict.lookup k (PyDict.set k' v d) =
    if String.eqb k' k then Some v else PyDict.lookup k d.
Proof.
  induction d as [|[k0 v0] d IH]; cbn [PyDict.set PyDict.lookup].
  - destruct (String.eqb k' k); reflexivity.
  - destruct (String.eqb k0 k') eqn:E0; cbn [PyDict.lookup].
    + apply String.eqb_eq in E0 as ->. destruct (String.eqb k' k); reflexivity.
    + destruct (String.eqb k0 k) eqn:E1.
      * apply String.eqb_eq in E1 as ->. rewrite String.eqb_sym, E0. reflexivity.
      * exact IH.
Qed.

Lemma lookup_trimmed_from (k : string) (l : PyDict.cells) (d : PyDict.cells) :
  PyDict.lookup k
    (fold_left (fun d kv => PyDict.set (PyStr.strip (fst kv)) (snd kv) d) l d) =
    match last (map snd (filter (fun kv => PyStr.strip (fst kv) = k) l)) with
    | Some v => Some v
    | None => PyDict.lookup k d
    end.
Proof.
  revert d. induction l as [|[k' v] l IH]; intros d; [reflexivity|].
  cbn [fold_left fst snd].
  rewrite IH, lookup_set, (filter_cons _ (k', v) l). cbn [fst].
  destruct (String.eqb_spec (PyStr.strip k') k) as [Heq|Hne].
  - rewrite decide_True by assumption. cbn [map snd]. rewrite last_cons.
    destruct (last _); reflexivity.
  - rewrite decide_False by assumption. reflexivity.
Qed.

(** X15: in the consolidated variant a row without surplus cells is read
    through its header names trimmed of white space: a name is looked up
    among the trimmed names, and where several columns have the same
    trimmed name the cell of the last of them is the one that is read. *)
Theorem X15_header_names_trimmed (r : row) :
  row_rest r = None ->
  exists c,
    Consolidated.strip_keys r = inr c /\
    forall k,
      PyDict.lookup k c =
        last (map snd (filter (fun kv => PyStr.strip (fst kv) = k)
                              (row_cells r))).
Proof.
  intros Hrest. unfold Consolidated.strip_keys. rewrite Hrest.
  eexists. split; [reflexivity|].
  intros k. rewrite lookup_trimmed_from. cbn [PyDict.lookup].
  destruct (last _); reflexivity.
Qed.

Lemma X15_header_names_trimmed_witness :
  let r := Row [(" GPG_Key_Expiry ", Some "06-01-2024");
                ("GPG_Key_Expiry", Some "07-01-2024")] None in
  row_rest r = None /\
  exists c, Consolidated.strip_keys r = inr c /\
            PyDict.lookup "GPG_Key_Expiry" c = Some (Some "07-01-2024").
Proof.
  intros r. split; [reflexivity|].
  destruct (X15_header_names_trimmed r eq_refl) as (c & Hc & Hlookup).
  exists c. split; [exact Hc|]. rewrite Hlookup. reflexivity.
Defined.

(** X16: both variants name a key by the first of GPG_Private_Key and
    GPG_private_key whose cell holds a text that is not empty, and by
    ["unknown"] when there is none; the consolidated variant names the feed
    the same way from Feed_Name and feed_name.  Neither name is ever
    empty. *)
Theorem X16_names_of_a_key (c : PyDict.cells) :
  let name_from aliases :=
    match first_present aliases c with Some v => v | None => "unknown" end in
  SingleKey.key_name_of c = name_from ["GPG_Private_Key"; "GPG_private_key"] /\
  Consolidated.key_name_of c = name_from ["GPG_Private_Key"; "GPG_private_key"] /\
  Consolidated.feed_name_of c = name_from ["Feed_Name"; "feed_name"] /\
  PyStr.nonempty (SingleKey.key_name_of c) = true /\
  PyStr.nonempty (Consolidated.feed_name_of c) = true.
Proof.
  cbv zeta.
  unfold SingleKey.key_name_of, Consolidated.key_name_of,
    Consolidated.feed_name_of, first_present, PyStr.or_lit, PyStr.or_.
  destruct (PyDict.get "GPG_Private_Key" c) as [[|? ?]|];
    destruct (PyDict.get "GPG_private_key" c) as [[|? ?]|];
    destruct (PyDict.get "Feed_Name" c) as [[|? ?]|];
    destruct (PyDict.get "feed_name" c) as [[|? ?]|];
    repeat split.
Qed.

End Headers.

(** ** A reader that fails after its rows *)

Section ReaderFailure.

(** X17: when the reader raises after it has yielded its rows, the
    single-key handler has already done everything it does for these rows:
    it ends in the same counters and with the same trace, mails included, as
    the run in which the reader stops normally, except that it logs the
    exception instead of the summary and returns status 500 with the text of
    the exception instead of status 200 with the counts. *)
Theorem X17_single_reader_failure ses today fieldnames rows (e : exn) :
  exists s t,
    SingleKey.lambda_handler (Manifest fieldnames rows None) ses today =
      (Ok (SingleKey.Response 200
             ("Processed " +:+ pretty (SingleKey.processed s) +:+
              " keys, sent " +:+ pretty (SingleKey.notified s) +:+
              " notifications")),
       s,
       t ++ [Print (LogSummary (SingleKey.processed s) (SingleKey.notified s)
                               (SingleKey.errors s))]) /\
    SingleKey.lambda_handler (Manifest fieldnames rows (Some e)) ses today =
      (Ok (SingleKey.Response 500 ("Error: " +:+ exn_str e)), s,
       t ++ [Print (LogFatal e)]).
Proof.
  unfold SingleKey.lambda_handler, SingleKey.run, Eff.for_rows. run_eff.
  match goal with
  | |- context [for_each rows ?b ?s0 ?t0] =>
      destruct (single_loop_invariant ses today rows s0 t0)
        as (s' & t' & -> & _); [cbn; lia|]
  end.
  exists s', t'. split; reflexivity.
Qed.

(** X18: when the reader raises after it has yielded its rows, the
    consolidated handler has built the same bundles as the run in which the
    reader stops normally, and sends none of them: no call of the transport
    is made. *)
Theorem X18_consolidated_reader_failure ses today fieldnames rows (e : exn) :
  exists s0 t0 s1 t1,
    Consolidated.lambda_handler (Manifest fieldnames rows None) ses today =
      (Ok tt, s0, t0) /\
    Consolidated.lambda_handler (Manifest fieldnames rows (Some e)) ses today =
      (Ok tt, s1, t1) /\
    Consolidated.recipient_keys s1 = Consolidated.recipient_keys s0 /\
    (forall rcp keys,
       In (rcp, keys) (Consolidated.recipient_keys s0) ->
       In (SendEmail (request_for rcp keys)) t0) /\
    sends t1 = 0%nat.
Proof.
  destruct (consolidated_run_mails today ses fieldnames rows)
    as (s0 & t0 & Hrun0 & Hkeys & Hiff).
  exists s0, t0. rewrite Hrun0.
  unfold Consolidated.lambda_handler, Consolidated.run, Eff.for_rows.
  unfold Eff.try_except at 1, Eff.bind at 1 2 3 4.
  unfold Eff.print at 1 2, Eff.emit, Eff.modify at 1.
  unfold Eff.bind at 1.
  match goal with
  | |- context [for_each rows ?b ?s ?t] =>
      destruct (consolidated_rows_loop today rows s t)
        as (p' & rv & t' & -> & Hs)
  end.
  unfold Eff.raise, Eff.print, Eff.emit.
  eexists _, _. split; [reflexivity|]. split; [reflexivity|].
  cbn [Consolidated.recipient_keys]. split; [symmetry; exact Hkeys|].
  split.
  - intros rcp keys Hin. apply Hiff. eauto.
  - rewrite sends_print, Hs. reflexivity.
Qed.

End ReaderFailure.
